(** * BIND statistics, XML version 2: the reader of [plugins/inputs/bind]

    A shallow embedding of [xml_stats_v2.go]: the decoded document tree,
    the accumulator calls of [addXMLv2Counter] and [readStatsXMLv2], and the
    store of Go maps these functions allocate and write. *)

From Stdlib Require Import ZArith.
From stdpp Require Import gmap strings list fin_maps.


(** ** The decoded document (the structs of [xml_stats_v2.go]) *)

(** [v2Counter]: a Go [int] is kept as an integer of [Z]; the code does no
    arithmetic on it. *)
Record v2Counter := mkCounter { Name : string; Value : Z }.

(** The anonymous element type of [Views[i].Caches]. *)
Record v2Cache := mkCache {
  cache_Name : string;
  cache_RRSets : list v2Counter }.

(** The anonymous element type of [v2Statistics.Views]. *)
Record v2View := mkView {
  view_Name : string;
  view_RdTypes : list v2Counter;
  view_ResStats : list v2Counter;
  view_Caches : list v2Cache }.

(** [v2Statistics.Server]. *)
Record v2Server := mkServer {
  OpCodes : list v2Counter;
  RdTypes : list v2Counter;
  NSStats : list v2Counter;
  ZoneStats : list v2Counter;
  ResStats : list v2Counter;
  SockStats : list v2Counter }.

(** The anonymous element type of [Memory.Contexts]. *)
Record v2Context := mkContext {
  ctx_Id : string;
  ctx_Name : string;
  ctx_Total : Z;
  ctx_InUse : Z }.

(** [Memory.Summary]. *)
Record v2Summary := mkSummary {
  TotalUse : Z;
  InUse : Z;
  BlockSize : Z;
  ContextSize : Z;
  Lost : Z }.

(** [v2Statistics.Memory]. *)
Record v2Memory := mkMemory {
  Contexts : list v2Context;
  Summary : v2Summary }.

Record v2Statistics := mkStatistics {
  stat_Version : string;
  Views : list v2View;
  Server : v2Server;
  Memory : v2Memory }.

(** [v2Root]; the [XMLName] field is never read and is left out. *)
Record v2Root := mkRoot {
  Version : string;
  Statistics : v2Statistics }.

(** The two switches of the [Bind] receiver that the reader looks at. *)
Record Bind := mkBind {
  GatherMemoryContexts : bool;
  GatherViews : bool }.

(** [*url.URL], through the two things the reader takes from it: the [Host]
    field and the text that [String()] renders. *)
Record URL := mkURL { Host : string; url_String : string }.

(** [*http.Response], through the fields the reader takes from it. *)
Record Response := mkResponse {
  StatusCode : Z;
  Status : string;
  ContentLength : Z;
  Body : string }.

(** A Go [error], kept as its message. *)
Definition error := string.

Definition StatusOK : Z := 200.

(** ** The world: Go maps by reference, the accumulator, outside calls *)

(** A [map[string]string] is a reference; the store is the list of the maps
    allocated so far and a reference is a position in it. *)
Definition ref := nat.

Inductive Kind := Counter | Gauge.

(** One call of [acc.AddCounter] or [acc.AddGauge]: the measurement, the
    fields (a map literal that is never written again, kept by value) and
    the reference of the tag map that was handed over. *)
Record Metric := mkMetric {
  kind : Kind;
  measurement : string;
  fields : gmap string Z;
  tags : ref }.

(** Calls that leave the package. *)
Inductive Event :=
  | EvGet (url : string)
  | EvLogPrintf (format : string) (arg : Z)
  | EvDecode (body : string)
  | EvClose.

Record World := mkWorld {
  heap : list (gmap string string);
  acc : list Metric;
  events : list Event }.

#[global] Instance Kind_eq_dec : EqDecision Kind.
Proof. solve_decision. Defined.

(** ** A state monad over the world *)

Definition M (A : Type) : Type := World → A * World.

Definition ret {A} (a : A) : M A := λ w, (a, w).

Definition bind {A B} (c : M A) (k : A → M B) : M B :=
  λ w, let r := c w in k r.1 r.2.

Notation "x <- c ;; k" := (bind c (λ x, k))
  (at level 100, c at next level, right associativity).
Notation "c ;;; k" := (bind c (λ _, k))
  (at level 100, right associativity).

Definition eval {A} (c : M A) (w : World) : A := (c w).1.
Definition exec {A} (c : M A) (w : World) : World := (c w).2.

(** [for _, x := range l { body x }] over a slice. *)
Fixpoint for_each {A} (body : A → M unit) (l : list A) : M unit :=
  match l with
  | [] => ret tt
  | x :: l' => body x ;;; for_each body l'
  end.

(** [for k, v := range m { body k v }] over a map value.  Go leaves the
    order open; the only such loop of the file writes each key once, so the
    order does not show (see [map_range_copy] and [copy_any_order]). *)
Definition map_range (body : string → string → M unit)
    (m : gmap string string) : M unit :=
  map_fold (λ k v rest, rest ;;; body k v) (ret tt) m.

(** [make(map[string]string)] and map literals: a new map in the store. *)
Definition new_map (m : gmap string string) : M ref :=
  λ w, (length (heap w),
        mkWorld (heap w ++ [m]) (acc w) (events w)).

(** [m[k] = v]. *)
Definition map_set (r : ref) (k v : string) : M unit :=
  λ w, (tt, mkWorld (alter (<[k:=v]>) r (heap w)) (acc w) (events w)).

(** The contents of a map, as [range] sees them. *)
Definition map_read (r : ref) : M (gmap string string) :=
  λ w, (default ∅ (heap w !! r), w).

Definition AddCounter (meas : string) (fs : gmap string Z) (t : ref) : M unit :=
  λ w, (tt, mkWorld (heap w) (acc w ++ [mkMetric Counter meas fs t]) (events w)).

Definition AddGauge (meas : string) (fs : gmap string Z) (t : ref) : M unit :=
  λ w, (tt, mkWorld (heap w) (acc w ++ [mkMetric Gauge meas fs t]) (events w)).

Definition emit_event (e : Event) : M unit :=
  λ w, (tt, mkWorld (heap w) (acc w) (events w ++ [e])).

(** ** [addXMLv2Counter] *)

Definition addXMLv2Counter (commonTags : ref) (stats : list v2Counter) : M unit :=
  for_each (λ c,
    tags <- new_map ∅ ;;
    src <- map_read commonTags ;;
    map_range (λ k v, map_set tags k v) src ;;;
    map_set tags "name" (Name c) ;;;
    AddCounter "bind_counter" {[ "value" := Value c ]} tags) stats.

(** ** [readStatsXMLv2] *)

Definition summary_fields (s : v2Summary) : gmap string Z :=
  <[ "TotalUse" := TotalUse s ]> (
  <[ "InUse" := InUse s ]> (
  <[ "BlockSize" := BlockSize s ]> (
  <[ "ContextSize" := ContextSize s ]> (
  {[ "Lost" := Lost s ]})))).

Definition context_fields (c : v2Context) : gmap string Z :=
  <[ "Total" := ctx_Total c ]> {[ "InUse" := ctx_InUse c ]}.

(** The loop body over [Memory.Contexts]. *)
Definition add_context (addr : URL) (c : v2Context) : M unit :=
  tags <- new_map (<[ "url" := Host addr ]> (
                   <[ "id" := ctx_Id c ]> {[ "name" := ctx_Name c ]})) ;;
  AddGauge "bind_memory_context" (context_fields c) tags.

(** The loop body over [Views]. *)
Definition add_view (addr : URL) (v : v2View) : M unit :=
  tags <- new_map (<[ "url" := Host addr ]> {[ "view" := view_Name v ]}) ;;
  map_set tags "type" "qtype" ;;;
  addXMLv2Counter tags (view_RdTypes v) ;;;
  map_set tags "type" "resstats" ;;;
  addXMLv2Counter tags (view_ResStats v).

(** The part of [readStatsXMLv2] after a successful decode.  It hands back
    the reference of its local [tags] map, which the Go code keeps in a
    local variable, so that statements can name it. *)
Definition emit_stats (b : Bind) (addr : URL) (stats : v2Root) : M ref :=
  tags <- new_map {[ "url" := Host addr ]} ;;
  map_set tags "type" "opcode" ;;;
  addXMLv2Counter tags (OpCodes (Server (Statistics stats))) ;;;
  map_set tags "type" "qtype" ;;;
  addXMLv2Counter tags (RdTypes (Server (Statistics stats))) ;;;
  map_set tags "type" "nsstat" ;;;
  addXMLv2Counter tags (NSStats (Server (Statistics stats))) ;;;
  map_set tags "type" "zonestat" ;;;
  addXMLv2Counter tags (ZoneStats (Server (Statistics stats))) ;;;
  map_set tags "type" "sockstat" ;;;
  addXMLv2Counter tags (SockStats (Server (Statistics stats))) ;;;
  mtags <- new_map {[ "url" := Host addr ]} ;;
  AddGauge "bind_memory"
    (summary_fields (Summary (Memory (Statistics stats)))) mtags ;;;
  (if GatherMemoryContexts b
   then for_each (add_context addr) (Contexts (Memory (Statistics stats)))
   else ret tt) ;;;
  (if GatherViews b
   then for_each (add_view addr) (Views (Statistics stats))
   else ret tt) ;;;
  ret tags.

Section Reader.
(** The HTTP client and the XML decoder are outside the package: what
    [client.Get] answers for a URL, and what [Decode] makes of a body. *)
Variable transport : string → error + Response.
Variable decoder : string → error + v2Root.

Definition client_Get (url : string) : M (error + Response) :=
  emit_event (EvGet url) ;;; ret (transport url).

Definition xml_Decode (body : string) : M (error + v2Root) :=
  emit_event (EvDecode body) ;;; ret (decoder body).

Definition readStatsXMLv2 (b : Bind) (addr : URL) : M (option error) :=
  r <- client_Get (url_String addr) ;;
  match r with
  | inl err => ret (Some err)
  | inr resp =>
      (* defer resp.Body.Close() *)
      res <- (if decide (StatusCode resp ≠ StatusOK)
              then ret (Some (url_String addr +:+ " returned HTTP status: "
                                +:+ Status resp))
              else
                emit_event (EvLogPrintf
                  "D! HTTP response content length: %d" (ContentLength resp)) ;;;
                d <- xml_Decode (Body resp) ;;
                match d with
                | inl err =>
                    ret (Some ("Unable to decode XML document: " +:+ err))
                | inr stats => emit_stats b addr stats ;;; ret None
                end) ;;
      emit_event EvClose ;;;
      ret res
  end.
End Reader.

(** ** What a run leaves behind *)

(** An observation as the sink sees it: the call together with the contents
    of the tag map it was given. *)
Record Obs := mkObs {
  o_kind : Kind;
  o_measurement : string;
  o_fields : gmap string Z;
  o_tags : gmap string string }.

Definition observe (h : list (gmap string string)) (m : Metric) : Obs :=
  mkObs (kind m) (measurement m) (fields m) (default ∅ (h !! tags m)).

(** The accumulator calls made between two worlds, and what they show in
    the later one. *)
Definition emitted (w w' : World) : list Metric :=
  drop (length (acc w)) (acc w').

Definition observations (w w' : World) : list Obs :=
  observe (heap w') <$> emitted w w'.

(** The maps a run allocates, in order of allocation: a map the function
    keeps for itself ([Base]), or a map handed to the accumulator with one
    call ([Emit]). *)
Inductive Item :=
  | Base (t : gmap string string)
  | Emit (k : Kind) (meas : string) (fs : gmap string Z) (t : gmap string string).

Definition item_map (i : Item) : gmap string string :=
  match i with Base t => t | Emit _ _ _ t => t end.

Fixpoint item_metrics (n : nat) (items : list Item) : list Metric :=
  match items with
  | [] => []
  | Base _ :: rest => item_metrics (S n) rest
  | Emit k meas fs _ :: rest => mkMetric k meas fs n :: item_metrics (S n) rest
  end.

Definition item_obs (items : list Item) : list Obs :=
  omap (λ i, match i with
             | Base _ => None
             | Emit k meas fs t => Some (mkObs k meas fs t)
             end) items.

(** [grows w w' items]: from [w] to [w'] the store grew by the maps of
    [items], the accumulator by their calls, and nothing else changed. *)
Record grows (w w' : World) (items : list Item) : Prop := mkGrows {
  grows_heap : heap w' = heap w ++ (item_map <$> items);
  grows_acc : acc w' = acc w ++ item_metrics (length (heap w)) items;
  grows_events : events w' = events w }.

(** The tag maps and the items the reader produces. *)
Definition section_tags (host label : string) : gmap string string :=
  <[ "type" := label ]> {[ "url" := host ]}.

Definition view_tags (host view label : string) : gmap string string :=
  <[ "type" := label ]> (<[ "url" := host ]> {[ "view" := view ]}).

Definition context_tags (host : string) (c : v2Context) : gmap string string :=
  <[ "url" := host ]> (<[ "id" := ctx_Id c ]> {[ "name" := ctx_Name c ]}).

Definition counter_item (common : gmap string string) (c : v2Counter) : Item :=
  Emit Counter "bind_counter" {[ "value" := Value c ]} (<[ "name" := Name c ]> common).

Definition counter_items (common : gmap string string) (stats : list v2Counter)
    : list Item :=
  counter_item common <$> stats.

Definition context_item (host : string) (c : v2Context) : Item :=
  Emit Gauge "bind_memory_context" (context_fields c) (context_tags host c).

Definition view_items (host : string) (v : v2View) : list Item :=
  Base (view_tags host (view_Name v) "resstats")
  :: counter_items (view_tags host (view_Name v) "qtype") (view_RdTypes v)
  ++ counter_items (view_tags host (view_Name v) "resstats") (view_ResStats v).

Definition server_items (host : string) (s : v2Server) : list Item :=
  counter_items (section_tags host "opcode") (OpCodes s)
  ++ counter_items (section_tags host "qtype") (RdTypes s)
  ++ counter_items (section_tags host "nsstat") (NSStats s)
  ++ counter_items (section_tags host "zonestat") (ZoneStats s)
  ++ counter_items (section_tags host "sockstat") (SockStats s).

Definition memory_items (b : Bind) (host : string) (m : v2Memory) : list Item :=
  Emit Gauge "bind_memory" (summary_fields (Summary m)) {[ "url" := host ]}
  :: (if GatherMemoryContexts b then context_item host <$> Contexts m else []).

Definition views_items (b : Bind) (host : string) (vs : list v2View) : list Item :=
  if GatherViews b then vs ≫= view_items host else [].

Definition stats_items (b : Bind) (host : string) (stats : v2Root) : list Item :=
  Base (section_tags host "sockstat")
  :: server_items host (Server (Statistics stats))
  ++ memory_items b host (Memory (Statistics stats))
  ++ views_items b host (Views (Statistics stats)).

(** The maps a whole cycle allocates: none unless the answer has status
    200 and decodes. *)
Definition run_items (transport : string → error + Response)
    (decoder : string → error + v2Root) (b : Bind) (addr : URL) : list Item :=
  match transport (url_String addr) with
  | inl _ => []
  | inr resp =>
      if decide (StatusCode resp ≠ StatusOK) then []
      else match decoder (Body resp) with
           | inl _ => []
           | inr stats => stats_items b (Host addr) stats
           end
  end.

(** ** Vocabulary of the statements *)

(** The observation of one counter of a server group. *)
Definition server_obs (meas host label : string) (c : v2Counter) : Obs :=
  mkObs Counter meas {[ "value" := Value c ]}
    (<[ "name" := Name c ]> (section_tags host label)).

Definition counter_obs (common : gmap string string) (c : v2Counter) : Obs :=
  mkObs Counter "bind_counter" {[ "value" := Value c ]}
    (<[ "name" := Name c ]> common).

(** A counter observation of the server section with a given [type]. *)
Definition is_server_counter (label : string) (o : Obs) : Prop :=
  o_kind o = Counter ∧ o_tags o !! "type" = Some label ∧ o_tags o !! "view" = None.

#[global] Instance is_server_counter_dec label o :
  Decision (is_server_counter label o).
Proof. unfold is_server_counter. apply _. Defined.

Definition is_counter (o : Obs) : Prop := o_kind o = Counter.

#[global] Instance is_counter_dec o : Decision (is_counter o).
Proof. unfold is_counter. apply _. Defined.

(** The server groups with their labels: the five the reader walks, and
    the six of the specification. *)
Definition read_groups (s : v2Server) : list (string * list v2Counter) :=
  [("opcode", OpCodes s); ("qtype", RdTypes s); ("nsstat", NSStats s);
   ("zonestat", ZoneStats s); ("sockstat", SockStats s)].

Definition listed_groups (s : v2Server) : list (string * list v2Counter) :=
  [("opcode", OpCodes s); ("qtype", RdTypes s); ("nsstat", NSStats s);
   ("zonestat", ZoneStats s); ("resstat", ResStats s); ("sockstat", SockStats s)].

(** The same document with other version markers. *)
Definition with_version (ver sver : string) (r : v2Root) : v2Root :=
  mkRoot ver (mkStatistics sver (Views (Statistics r))
                (Server (Statistics r)) (Memory (Statistics r))).

(** The same document without the cache sections of its views. *)
Definition drop_view_caches (v : v2View) : v2View :=
  mkView (view_Name v) (view_RdTypes v) (view_ResStats v) [].

Definition drop_caches (r : v2Root) : v2Root :=
  mkRoot (Version r)
    (mkStatistics (stat_Version (Statistics r))
       (drop_view_caches <$> Views (Statistics r))
       (Server (Statistics r)) (Memory (Statistics r))).

(** A decoder followed by a change of the decoded document. *)
Definition decode_then (f : v2Root → v2Root)
    (decoder : string → error + v2Root) (body : string) : error + v2Root :=
  match decoder body with
  | inl e => inl e
  | inr r => inr (f r)
  end.

(** ** Fixtures *)

Definition empty_world : World := mkWorld [] [] [].

Definition example_addr : URL := mkURL "example:8053" "http://example:8053".

Definition no_server : v2Server := mkServer [] [] [] [] [] [].
Definition no_memory : v2Memory := mkMemory [] (mkSummary 0 0 0 0 0).

(** One opcode counter and nothing else. *)
Definition opcode_fixture : v2Root :=
  mkRoot "2" (mkStatistics "2.2" []
    (mkServer [mkCounter "QUERY" 42] [] [] [] [] []) no_memory).

(** Counters in several places: two server groups, the resolver group of
    the server, a memory context, and a view with a cache. *)
Definition full_fixture (ver : string) : v2Root :=
  mkRoot ver (mkStatistics "2.2"
    [mkView "_default" [mkCounter "A" 3] [mkCounter "Queryv4" 5]
       [mkCache "_default" [mkCounter "NS" 1]]]
    (mkServer [mkCounter "QUERY" 42] [mkCounter "A" 9] [] []
       [mkCounter "Queryv4" 7] [])
    (mkMemory [mkContext "0x1" "main" 10 5] (mkSummary 1 2 3 4 5))).

(** An answer with a given status line and code, for any URL. *)
Definition answer (code : Z) (status : string) (url : string) : error + Response :=
  inr (mkResponse code status 10 "<isc/>").

Definition decodes_to (r : v2Root) (body : string) : error + v2Root := inr r.

Definition decode_fails (body : string) : error + v2Root :=
  inl "XML syntax error on line 1: unexpected EOF".

(** A cycle on [full_fixture "2"], answered with status 200, from the
    empty world. *)
Definition full_cycle (b : Bind) : M (option error) :=
  readStatsXMLv2 (answer 200 "200 OK") (decodes_to (full_fixture "2"))
    b example_addr.

(** The same on [opcode_fixture]. *)
Definition opcode_cycle (b : Bind) : M (option error) :=
  readStatsXMLv2 (answer 200 "200 OK") (decodes_to opcode_fixture)
    b example_addr.

(** ** The reader as a function of the decoded document *)

(** The document a cycle gets to emit from: the one decoded from an answer
    with status 200, if the fetch, the status test and the decode all
    pass. *)
Definition decoded_document (transport : string → error + Response)
    (decoder : string → error + v2Root) (addr : URL) : option v2Root :=
  match transport (url_String addr) with
  | inl _ => None
  | inr resp =>
      if decide (StatusCode resp = StatusOK)
      then match decoder (Body resp) with
           | inl _ => None
           | inr stats => Some stats
           end
      else None
  end.

Definition summary_obs (host : string) (s : v2Summary) : Obs :=
  mkObs Gauge "bind_memory" (summary_fields s) {[ "url" := host ]}.

Definition context_obs (host : string) (c : v2Context) : Obs :=
  mkObs Gauge "bind_memory_context" (context_fields c)
    {[ "url" := host; "id" := ctx_Id c; "name" := ctx_Name c ]}.

Definition view_obs (host : string) (v : v2View) : list Obs :=
  (counter_obs {[ "url" := host; "view" := view_Name v; "type" := "qtype" ]}
     <$> view_RdTypes v)
  ++ (counter_obs {[ "url" := host; "view" := view_Name v; "type" := "resstats" ]}
        <$> view_ResStats v).

(** The observations of a decoded document, in the order of the statements
    of [readStatsXMLv2]. *)
Definition expected_observations (b : Bind) (host : string) (stats : v2Root)
    : list Obs :=
  (server_obs "bind_counter" host "opcode"
     <$> OpCodes (Server (Statistics stats)))
  ++ (server_obs "bind_counter" host "qtype"
        <$> RdTypes (Server (Statistics stats)))
  ++ (server_obs "bind_counter" host "nsstat"
        <$> NSStats (Server (Statistics stats)))
  ++ (server_obs "bind_counter" host "zonestat"
        <$> ZoneStats (Server (Statistics stats)))
  ++ (server_obs "bind_counter" host "sockstat"
        <$> SockStats (Server (Statistics stats)))
  ++ [summary_obs host (Summary (Memory (Statistics stats)))]
  ++ (if GatherMemoryContexts b
      then context_obs host <$> Contexts (Memory (Statistics stats))
      else [])
  ++ (if GatherViews b
      then Views (Statistics stats) ≫= view_obs host
      else []).

Definition view_count (v : v2View) : nat :=
  length (view_RdTypes v) + length (view_ResStats v).

(** How many observations a decoded document gives. *)
Definition expected_count (b : Bind) (stats : v2Root) : nat :=
  length (OpCodes (Server (Statistics stats)))
  + length (RdTypes (Server (Statistics stats)))
  + length (NSStats (Server (Statistics stats)))
  + length (ZoneStats (Server (Statistics stats)))
  + length (SockStats (Server (Statistics stats)))
  + 1
  + (if GatherMemoryContexts b
     then length (Contexts (Memory (Statistics stats))) else 0)
  + (if GatherViews b
     then sum_list (view_count <$> Views (Statistics stats)) else 0).

(** The same document with another resolver group in its server section. *)
Definition with_server_ResStats (rs : list v2Counter) (r : v2Root) : v2Root :=
  mkRoot (Version r)
    (mkStatistics (stat_Version (Statistics r)) (Views (Statistics r))
       (mkServer (OpCodes (Server (Statistics r)))
          (RdTypes (Server (Statistics r)))
          (NSStats (Server (Statistics r)))
          (ZoneStats (Server (Statistics r)))
          rs
          (SockStats (Server (Statistics r))))
       (Memory (Statistics r))).

(** Tests on observations. *)
Definition has_measurement (meas : string) (o : Obs) : Prop :=
  o_measurement o = meas.

#[global] Instance has_measurement_dec meas o : Decision (has_measurement meas o).
Proof. unfold has_measurement. apply _. Defined.

Definition has_view_tag (o : Obs) : Prop := is_Some (o_tags o !! "view").

#[global] Instance has_view_tag_dec o : Decision (has_view_tag o).
Proof. unfold has_view_tag. apply _. Defined.

(** The shape of an observation of this reader: a counter is named
    [bind_counter], has the one field [value] and carries [type] and
    [name]; a gauge is one of the two memory measurements and carries no
    [type]. *)
Definition well_shaped (o : Obs) : Prop :=
  match o_kind o with
  | Counter =>
      o_measurement o = "bind_counter"
      ∧ (∃ x, o_fields o = {[ "value" := x ]})
      ∧ is_Some (o_tags o !! "type")
      ∧ is_Some (o_tags o !! "name")
  | Gauge =>
      (o_measurement o = "bind_memory" ∨ o_measurement o = "bind_memory_context")
      ∧ o_tags o !! "type" = None
  end.

(** ** Lemmas on the monad and the store *)

Lemma exec_bind {A B} (c : M A) (k : A → M B) w :
  exec (bind c k) w = exec (k (eval c w)) (exec c w).
Proof. reflexivity. Qed.

Lemma world_eta w : mkWorld (heap w) (acc w) (events w) = w.
Proof. by destruct w. Qed.

Lemma item_metrics_app n items1 items2 :
  item_metrics n (items1 ++ items2)
  = item_metrics n items1 ++ item_metrics (n + length items1) items2.
Proof.
  revert n. induction items1 as [|[t|k meas fs t] items1 IH]; intros n; simpl.
  - by rewrite Nat.add_0_r.
  - rewrite IH. by rewrite Nat.add_succ_comm.
  - rewrite IH. by rewrite Nat.add_succ_comm.
Qed.

Lemma grows_refl w : grows w w [].
Proof. split; simpl; by rewrite ?app_nil_r. Qed.

Lemma grows_trans w w1 w2 items1 items2 :
  grows w w1 items1 → grows w1 w2 items2 → grows w w2 (items1 ++ items2).
Proof.
  intros [Hh1 Ha1 He1] [Hh2 Ha2 He2]. split.
  - by rewrite Hh2, Hh1, fmap_app, (assoc_L (++)).
  - rewrite Ha2, Ha1, Hh1, item_metrics_app, length_app, length_fmap.
    by rewrite (assoc_L (++)).
  - by rewrite He2.
Qed.

(** A map that existed before a run is still there, unchanged, after it. *)
Lemma grows_lookup w w' items r t :
  grows w w' items → heap w !! r = Some t → heap w' !! r = Some t.
Proof. intros [-> _ _] ?. by apply lookup_app_l_Some. Qed.

(** The copy loop of [addXMLv2Counter]: after it the target holds the
    entries of the source on top of what it held. *)
Lemma map_range_copy (l : ref) (src : gmap string string) w :
  map_range (λ k v, map_set l k v) src w
  = (tt, mkWorld (alter (λ t, src ∪ t) l (heap w)) (acc w) (events w)).
Proof.
  unfold map_range. revert w.
  apply (map_fold_weak_ind
    (λ (c : M unit) (m : gmap string string), ∀ w,
       c w = (tt, mkWorld (alter (λ t, m ∪ t) l (heap w)) (acc w) (events w)))).
  - intros w. unfold ret. rewrite list_alter_id; [by rewrite world_eta|].
    intros t. by rewrite (left_id_L ∅ (∪)).
  - intros k v m rest _ IH w. unfold bind, map_set. rewrite IH. simpl.
    rewrite list_alter_alter_eq. do 2 f_equal.
    apply list_alter_ext; [|done]. intros t _. simpl.
    by rewrite insert_union_l.
Qed.

(** The same copy in any other order of the keys: for every enumeration of
    a map without repeated keys, writing the pairs one after the other
    gives the same store. *)
Lemma copy_any_order (l : ref) (kvs : list (string * string)) w :
  NoDup kvs.*1 →
  for_each (λ kv, map_set l kv.1 kv.2) kvs w
  = (tt, mkWorld (alter (λ t, list_to_map kvs ∪ t) l (heap w)) (acc w) (events w)).
Proof.
  revert w. induction kvs as [|[k v] kvs IH]; intros w Hnd.
  - simpl. unfold ret. rewrite list_alter_id; [by rewrite world_eta|].
    intros t. by rewrite (left_id_L ∅ (∪)).
  - apply NoDup_cons in Hnd as [Hk Hnd].
    simpl. unfold bind at 1. simpl. rewrite IH by done. simpl.
    rewrite list_alter_alter_eq. do 2 f_equal.
    apply list_alter_ext; [|done]. intros t _. simpl.
    rewrite <- insert_union_l, <- insert_union_r; [done|].
    by apply not_elem_of_list_to_map_1.
Qed.

(** One turn of the loop of [addXMLv2Counter]. *)
Lemma addXMLv2Counter_cons common c stats w :
  addXMLv2Counter common (c :: stats) w
  = addXMLv2Counter common stats
      (mkWorld (heap w ++ [<[ "name" := Name c ]> (default ∅ (heap w !! common))])
               (acc w ++ [mkMetric Counter "bind_counter"
                            {[ "value" := Value c ]} (length (heap w))])
               (events w)).
Proof.
  unfold addXMLv2Counter at 1. simpl. unfold bind at 1. simpl.
  fold (addXMLv2Counter common stats). f_equal.
  unfold bind, new_map, map_read, AddCounter. simpl.
  rewrite map_range_copy. unfold map_set. simpl.
  rewrite list_alter_alter_eq.
  replace (length (heap w)) with (length (heap w) + 0) at 1 by lia.
  rewrite alter_app_r. simpl.
  rewrite (right_id_L ∅ (∪)).
  destruct (decide (common < length (heap w))) as [Hlt|Hge].
  - by rewrite lookup_app_l.
  - rewrite (lookup_ge_None_2 (heap w)) by lia.
    destruct (decide (common = length (heap w))) as [->|Hne].
    + by rewrite list_lookup_middle.
    + rewrite lookup_ge_None_2; [done|]. rewrite length_app. simpl. lia.
Qed.

(** ** The runs of [addXMLv2Counter] and of the emitting part *)

Lemma addXMLv2Counter_grows common t stats w :
  heap w !! common = Some t →
  grows w (exec (addXMLv2Counter common stats) w) (counter_items t stats).
Proof.
  revert w. induction stats as [|c stats IH]; intros w Hc.
  - apply grows_refl.
  - unfold exec. rewrite addXMLv2Counter_cons. rewrite Hc. simpl.
    match goal with |- grows _ (addXMLv2Counter _ _ ?w1).2 _ => set (w1' := w1) end.
    assert (grows w w1' [counter_item t c]) as Hstep by (by split).
    change (counter_items t (c :: stats))
      with ([counter_item t c] ++ counter_items t stats).
    apply (grows_trans _ _ _ _ _ Hstep), IH.
    by apply (grows_lookup _ _ _ _ _ Hstep).
Qed.

Lemma new_map_grows t w : grows w (exec (new_map t) w) [Base t].
Proof. split; simpl; by rewrite ?app_nil_r. Qed.

(** Writing a key of the first map of a run. *)
Lemma grows_set_base w w1 t rest k v :
  grows w w1 (Base t :: rest) →
  grows w (exec (map_set (length (heap w)) k v) w1) (Base (<[k:=v]> t) :: rest).
Proof.
  intros [Hh Ha He]. split; simpl; [|done..].
  rewrite Hh. replace (length (heap w)) with (length (heap w) + 0) at 1 by lia.
  by rewrite alter_app_r.
Qed.

(** One counter group of a section: set the [type] tag of the section's
    map, then add the group from it. *)
Lemma grows_group w w1 t t' rest label g :
  grows w w1 (Base t :: rest) →
  <[ "type" := label ]> t = t' →
  grows w (exec (addXMLv2Counter (length (heap w)) g)
             (exec (map_set (length (heap w)) "type" label) w1))
    (Base t' :: rest ++ counter_items t' g).
Proof.
  intros Hg <-.
  apply (grows_set_base _ _ _ _ "type" label) in Hg.
  apply (grows_trans _ _ _ _ _ Hg), addXMLv2Counter_grows.
  destruct Hg as [-> _ _]. simpl. by apply list_lookup_middle.
Qed.

Lemma add_gauge_grows meas fs t w :
  grows w (exec (AddGauge meas fs (eval (new_map t) w)) (exec (new_map t) w))
    [Emit Gauge meas fs t].
Proof. by split. Qed.

Lemma add_contexts_grows addr cs w :
  grows w (exec (for_each (add_context addr) cs) w)
    (context_item (Host addr) <$> cs).
Proof.
  revert w. induction cs as [|c cs IH]; intros w; [apply grows_refl|].
  simpl. rewrite exec_bind.
  apply (grows_trans _ (exec (add_context addr c) w) _
           [context_item (Host addr) c] (context_item (Host addr) <$> cs));
    [|apply IH].
  apply add_gauge_grows.
Qed.

Lemma add_view_grows addr v w :
  grows w (exec (add_view addr v) w) (view_items (Host addr) v).
Proof.
  unfold add_view. rewrite !exec_bind.
  change (eval (new_map _) w) with (length (heap w)).
  pose proof (new_map_grows
    (<[ "url" := Host addr ]> {[ "view" := view_Name v ]}) w) as H0.
  apply (grows_group _ _ _
    (view_tags (Host addr) (view_Name v) "qtype") _ "qtype" (view_RdTypes v))
    in H0; [|done].
  apply (grows_group _ _ _
    (view_tags (Host addr) (view_Name v) "resstats") _ "resstats" (view_ResStats v))
    in H0; [|unfold view_tags; by rewrite insert_insert_eq].
  exact H0.
Qed.

Lemma add_views_grows addr vs w :
  grows w (exec (for_each (add_view addr) vs) w) (vs ≫= view_items (Host addr)).
Proof.
  revert w. induction vs as [|v vs IH]; intros w; [apply grows_refl|].
  change (for_each (add_view addr) (v :: vs))
    with (add_view addr v ;;; for_each (add_view addr) vs).
  rewrite exec_bind, bind_cons.
  apply (grows_trans _ (exec (add_view addr v) w) _
           (view_items (Host addr) v) (vs ≫= view_items (Host addr)));
    [apply add_view_grows|apply IH].
Qed.

Lemma eval_emit_stats b addr stats w :
  eval (emit_stats b addr stats) w = length (heap w).
Proof. reflexivity. Qed.

Lemma emit_stats_grows b addr stats w :
  grows w (exec (emit_stats b addr stats) w) (stats_items b (Host addr) stats).
Proof.
  unfold emit_stats. rewrite !exec_bind.
  change (eval (new_map {[ "url" := Host addr ]}) w) with (length (heap w)).
  set (s := Server (Statistics stats)).
  set (host := Host addr).
  pose proof (new_map_grows {[ "url" := host ]} w) as H0.
  apply (grows_group _ _ _ (section_tags host "opcode") _ "opcode" (OpCodes s))
    in H0; [|done].
  apply (grows_group _ _ _ (section_tags host "qtype") _ "qtype" (RdTypes s))
    in H0; [|unfold section_tags; by rewrite insert_insert_eq].
  apply (grows_group _ _ _ (section_tags host "nsstat") _ "nsstat" (NSStats s))
    in H0; [|unfold section_tags; by rewrite insert_insert_eq].
  apply (grows_group _ _ _ (section_tags host "zonestat") _ "zonestat" (ZoneStats s))
    in H0; [|unfold section_tags; by rewrite insert_insert_eq].
  apply (grows_group _ _ _ (section_tags host "sockstat") _ "sockstat" (SockStats s))
    in H0; [|unfold section_tags; by rewrite insert_insert_eq].
  match type of H0 with grows _ ?w5 _ => set (w5' := w5) in * end.
  pose proof (add_gauge_grows "bind_memory"
    (summary_fields (Summary (Memory (Statistics stats))))
    {[ "url" := host ]} w5') as Hm.
  pose proof (grows_trans _ _ _ _ _ H0 Hm) as H1. clear H0 Hm.
  match type of H1 with grows _ ?w6 _ => set (w6' := w6) in * end.
  assert (grows w6'
    (exec (if GatherMemoryContexts b
           then for_each (add_context addr) (Contexts (Memory (Statistics stats)))
           else ret tt) w6')
    (if GatherMemoryContexts b
     then context_item host <$> Contexts (Memory (Statistics stats)) else []))
    as Hc.
  { destruct (GatherMemoryContexts b);
      [apply add_contexts_grows|apply grows_refl]. }
  pose proof (grows_trans _ _ _ _ _ H1 Hc) as H2. clear H1 Hc.
  match type of H2 with grows _ ?w7 _ => set (w7' := w7) in * end.
  assert (grows w7'
    (exec (if GatherViews b
           then for_each (add_view addr) (Views (Statistics stats))
           else ret tt) w7')
    (views_items b host (Views (Statistics stats)))) as Hv.
  { unfold views_items. destruct (GatherViews b);
      [apply add_views_grows|apply grows_refl]. }
  pose proof (grows_trans _ _ _ _ _ H2 Hv) as H3. clear H2 Hv.
  unfold stats_items, server_items, memory_items.
  fold s host. simpl in H3. simpl.
  rewrite <- !(assoc_L (++)) in H3. rewrite <- !(assoc_L (++)).
  exact H3.
Qed.

(** ** From the allocation log to what the sink sees *)

Lemma item_metrics_ge n items :
  Forall (λ m, n ≤ tags m) (item_metrics n items).
Proof.
  revert n. induction items as [|[t|k meas fs t] items IH]; intros n; simpl.
  - constructor.
  - eapply Forall_impl; [apply IH|]. simpl. lia.
  - constructor; [simpl; lia|].
    eapply Forall_impl; [apply IH|]. simpl. lia.
Qed.

Lemma item_metrics_lt n items :
  Forall (λ m, tags m < n + length items) (item_metrics n items).
Proof.
  revert n. induction items as [|[t|k meas fs t] items IH]; intros n; simpl.
  - constructor.
  - eapply Forall_impl; [apply IH|]. simpl. lia.
  - constructor; [simpl; lia|].
    eapply Forall_impl; [apply IH|]. simpl. lia.
Qed.

Lemma item_metrics_NoDup n items :
  NoDup (tags <$> item_metrics n items).
Proof.
  revert n. induction items as [|[t|k meas fs t] items IH]; intros n; simpl.
  - constructor.
  - apply IH.
  - constructor; [|apply IH].
    intros Hin. apply list_elem_of_fmap in Hin as (m & Hm & Hin).
    pose proof (item_metrics_ge (S n) items) as Hge.
    rewrite Forall_forall in Hge. specialize (Hge m Hin). simpl in Hm. lia.
Qed.

Lemma observe_items pre items post :
  observe (pre ++ (item_map <$> items) ++ post)
    <$> item_metrics (length pre) items
  = item_obs items.
Proof.
  revert pre. induction items as [|i items IH]; intros pre; [done|].
  assert (observe (pre ++ (item_map <$> i :: items) ++ post)
            <$> item_metrics (S (length pre)) items = item_obs items) as Hrest.
  { specialize (IH (pre ++ [item_map i])).
    rewrite length_app, Nat.add_1_r in IH. rewrite <- IH.
    by rewrite <- (assoc_L (++)). }
  destruct i as [t|k meas fs t]; simpl; [exact Hrest|].
  unfold item_obs. simpl. f_equal; [|exact Hrest].
  unfold observe. simpl. by rewrite list_lookup_middle.
Qed.

Lemma grows_emitted w w' items :
  grows w w' items → emitted w w' = item_metrics (length (heap w)) items.
Proof. intros [_ Ha _]. unfold emitted. by rewrite Ha, drop_app_length. Qed.

Lemma grows_observations w w' items :
  grows w w' items → observations w w' = item_obs items.
Proof.
  intros Hg. unfold observations. rewrite (grows_emitted _ _ _ Hg).
  destruct Hg as [-> _ _].
  rewrite <- (observe_items (heap w) items []). by rewrite app_nil_r.
Qed.

(** ** The four ways a cycle ends *)

Section Cycle.
Variable transport : string → error + Response.
Variable decoder : string → error + v2Root.
Variables (b : Bind) (addr : URL).

Abbreviation cycle := (readStatsXMLv2 transport decoder b addr).
Abbreviation cycle_items := (run_items transport decoder b addr).

Lemma cycle_get_error w e :
  transport (url_String addr) = inl e →
  cycle w = (Some e,
             mkWorld (heap w) (acc w) (events w ++ [EvGet (url_String addr)])).
Proof.
  intros Ht. unfold readStatsXMLv2, client_Get, bind, emit_event, ret. simpl.
  by rewrite Ht.
Qed.

Lemma cycle_bad_status w resp :
  transport (url_String addr) = inr resp →
  StatusCode resp ≠ StatusOK →
  cycle w = (Some (url_String addr +:+ " returned HTTP status: " +:+ Status resp),
             mkWorld (heap w) (acc w)
               (events w ++ [EvGet (url_String addr); EvClose])).
Proof.
  intros Ht Hs. unfold readStatsXMLv2, client_Get, bind, emit_event, ret. simpl.
  rewrite Ht. simpl. rewrite decide_True by done. simpl.
  by rewrite <- (assoc_L (++)).
Qed.

Lemma cycle_decode_error w resp e :
  transport (url_String addr) = inr resp →
  StatusCode resp = StatusOK →
  decoder (Body resp) = inl e →
  cycle w = (Some ("Unable to decode XML document: " +:+ e),
             mkWorld (heap w) (acc w)
               (events w ++ [EvGet (url_String addr);
                             EvLogPrintf "D! HTTP response content length: %d"
                               (ContentLength resp);
                             EvDecode (Body resp); EvClose])).
Proof.
  intros Ht Hs Hd.
  unfold readStatsXMLv2, client_Get, xml_Decode, bind, emit_event, ret. simpl.
  rewrite Ht. simpl. rewrite decide_False by (by intros []). simpl.
  rewrite Hd. simpl. by rewrite <- !(assoc_L (++)).
Qed.

Lemma cycle_ok w resp stats :
  transport (url_String addr) = inr resp →
  StatusCode resp = StatusOK →
  decoder (Body resp) = inr stats →
  cycle w = (None,
             mkWorld
               (heap w ++ (item_map <$> stats_items b (Host addr) stats))
               (acc w ++ item_metrics (length (heap w))
                           (stats_items b (Host addr) stats))
               (events w ++ [EvGet (url_String addr);
                             EvLogPrintf "D! HTTP response content length: %d"
                               (ContentLength resp);
                             EvDecode (Body resp); EvClose])).
Proof.
  intros Ht Hs Hd.
  unfold readStatsXMLv2, client_Get, xml_Decode, bind, emit_event, ret.
  cbn -[emit_stats].
  rewrite Ht. cbn -[emit_stats]. rewrite decide_False by (by intros []).
  cbn -[emit_stats]. rewrite Hd. cbn -[emit_stats].
  match goal with |- context [emit_stats b addr stats ?w1] => set (w1' := w1) end.
  destruct (emit_stats_grows b addr stats w1') as [Hh Ha He].
  unfold exec in Hh, Ha, He. rewrite Hh, Ha, He. simpl.
  by rewrite <- !(assoc_L (++)).
Qed.

Lemma cycle_heap w :
  heap (exec cycle w) = heap w ++ (item_map <$> cycle_items).
Proof.
  unfold exec, run_items.
  destruct (transport (url_String addr)) as [e|resp] eqn:Ht.
  { rewrite (cycle_get_error w e Ht). simpl. by rewrite app_nil_r. }
  case_decide as Hs.
  { rewrite (cycle_bad_status w resp Ht Hs). simpl. by rewrite app_nil_r. }
  destruct (decoder (Body resp)) as [e|stats] eqn:Hd.
  { rewrite (cycle_decode_error w resp e Ht Hs Hd). simpl. by rewrite app_nil_r. }
  by rewrite (cycle_ok w resp stats Ht Hs Hd).
Qed.

Lemma cycle_acc w :
  acc (exec cycle w) = acc w ++ item_metrics (length (heap w)) cycle_items.
Proof.
  unfold exec, run_items.
  destruct (transport (url_String addr)) as [e|resp] eqn:Ht.
  { rewrite (cycle_get_error w e Ht). simpl. by rewrite app_nil_r. }
  case_decide as Hs.
  { rewrite (cycle_bad_status w resp Ht Hs). simpl. by rewrite app_nil_r. }
  destruct (decoder (Body resp)) as [e|stats] eqn:Hd.
  { rewrite (cycle_decode_error w resp e Ht Hs Hd). simpl. by rewrite app_nil_r. }
  by rewrite (cycle_ok w resp stats Ht Hs Hd).
Qed.

Lemma cycle_emitted w :
  emitted w (exec cycle w) = item_metrics (length (heap w)) cycle_items.
Proof. unfold emitted. by rewrite cycle_acc, drop_app_length. Qed.

Lemma cycle_observations w :
  observations w (exec cycle w) = item_obs cycle_items.
Proof.
  unfold observations. rewrite cycle_emitted, cycle_heap.
  rewrite <- (observe_items (heap w) cycle_items []). by rewrite app_nil_r.
Qed.
End Cycle.

(** ** Errors of a cycle *)

(** C3: when the answer has status 200 and its body does not decode, the
    cycle returns the decode error, and the accumulator has received no
    call and no tag map has been made: nothing is emitted before the
    decode has succeeded. *)
Theorem decode_failure_emits_nothing transport decoder b addr w resp e :
  transport (url_String addr) = inr resp →
  StatusCode resp = StatusOK →
  decoder (Body resp) = inl e →
  eval (readStatsXMLv2 transport decoder b addr) w
    = Some ("Unable to decode XML document: " +:+ e)
  ∧ acc (exec (readStatsXMLv2 transport decoder b addr) w) = acc w
  ∧ heap (exec (readStatsXMLv2 transport decoder b addr) w) = heap w.
Proof.
  intros Ht Hs Hd. unfold eval, exec.
  by rewrite (cycle_decode_error transport decoder b addr w resp e Ht Hs Hd).
Qed.

Lemma decode_failure_emits_nothing_witness :
  eval (readStatsXMLv2 (answer 200 "200 OK") decode_fails
          (mkBind true true) example_addr) empty_world
    = Some ("Unable to decode XML document: "
            +:+ "XML syntax error on line 1: unexpected EOF")
  ∧ acc (exec (readStatsXMLv2 (answer 200 "200 OK") decode_fails
                 (mkBind true true) example_addr) empty_world) = []
  ∧ heap (exec (readStatsXMLv2 (answer 200 "200 OK") decode_fails
                  (mkBind true true) example_addr) empty_world) = [].
Proof.
  apply (decode_failure_emits_nothing (answer 200 "200 OK") decode_fails
           (mkBind true true) example_addr empty_world
           (mkResponse 200 "200 OK" 10 "<isc/>")
           "XML syntax error on line 1: unexpected EOF");
    reflexivity.
Defined.

(** C5, as the code has it: the test is on status 200 alone.  An answer
    with any other status ends the cycle with an error that carries the
    target and the status line, with no accumulator call and without the
    body being decoded; an answer with status 200 has its body decoded. *)
Theorem only_status_200_is_decoded transport decoder b addr w resp :
  transport (url_String addr) = inr resp →
  if decide (StatusCode resp = StatusOK)
  then events (exec (readStatsXMLv2 transport decoder b addr) w)
       = events w ++ [EvGet (url_String addr);
                      EvLogPrintf "D! HTTP response content length: %d"
                        (ContentLength resp);
                      EvDecode (Body resp); EvClose]
  else eval (readStatsXMLv2 transport decoder b addr) w
       = Some (url_String addr +:+ " returned HTTP status: " +:+ Status resp)
       ∧ acc (exec (readStatsXMLv2 transport decoder b addr) w) = acc w
       ∧ events (exec (readStatsXMLv2 transport decoder b addr) w)
         = events w ++ [EvGet (url_String addr); EvClose].
Proof.
  intros Ht. unfold eval, exec. case_decide as Hs.
  - destruct (decoder (Body resp)) as [e|stats] eqn:Hd.
    + by rewrite (cycle_decode_error transport decoder b addr w resp e Ht Hs Hd).
    + by rewrite (cycle_ok transport decoder b addr w resp stats Ht Hs Hd).
  - by rewrite (cycle_bad_status transport decoder b addr w resp Ht Hs).
Qed.

Lemma only_status_200_is_decoded_witness :
  eval (readStatsXMLv2 (answer 404 "404 Not Found") (decodes_to opcode_fixture)
          (mkBind true true) example_addr) empty_world
    = Some "http://example:8053 returned HTTP status: 404 Not Found"
  ∧ acc (exec (readStatsXMLv2 (answer 404 "404 Not Found")
                 (decodes_to opcode_fixture)
                 (mkBind true true) example_addr) empty_world) = []
  ∧ events (exec (readStatsXMLv2 (answer 404 "404 Not Found")
                    (decodes_to opcode_fixture)
                    (mkBind true true) example_addr) empty_world)
    = [EvGet "http://example:8053"; EvClose].
Proof.
  exact (only_status_200_is_decoded (answer 404 "404 Not Found")
           (decodes_to opcode_fixture) (mkBind true true) example_addr empty_world
           (mkResponse 404 "404 Not Found" 10 "<isc/>") eq_refl).
Defined.

(** C5, as stated, fails: an answer with status 204 is in the 2xx class,
    yet the cycle ends with the status error and the decoder is never
    called. *)
Lemma status_204_not_decoded :
  (200 ≤ 204 < 300)%Z
  ∧ eval (readStatsXMLv2 (answer 204 "204 No Content") (decodes_to opcode_fixture)
            (mkBind true true) example_addr) empty_world
    = Some "http://example:8053 returned HTTP status: 204 No Content"
  ∧ ¬ (∃ body, EvDecode body ∈
         events (exec (readStatsXMLv2 (answer 204 "204 No Content")
                         (decodes_to opcode_fixture)
                         (mkBind true true) example_addr) empty_world)).
Proof.
  split; [lia|]. split; [reflexivity|].
  intros [body Hin]. vm_compute in Hin.
  repeat (apply elem_of_cons in Hin as [Hin|Hin]; [discriminate Hin|]).
  by apply elem_of_nil in Hin.
Qed.

(** ** What the reader does not look at *)

Lemma for_each_drop_view_caches addr vs :
  for_each (add_view addr) (drop_view_caches <$> vs)
  = for_each (add_view addr) vs.
Proof.
  induction vs as [|v vs IH]; [done|].
  rewrite fmap_cons. simpl. by rewrite IH.
Qed.

Lemma emit_stats_drop_caches b addr stats :
  emit_stats b addr (drop_caches stats) = emit_stats b addr stats.
Proof.
  unfold emit_stats. simpl. by rewrite for_each_drop_view_caches.
Qed.

(** A change of the decoded document that the emitting part does not see
    is not seen by the cycle either. *)
Lemma cycle_decode_then f transport decoder b addr w :
  (∀ stats, emit_stats b addr (f stats) = emit_stats b addr stats) →
  readStatsXMLv2 transport (decode_then f decoder) b addr w
  = readStatsXMLv2 transport decoder b addr w.
Proof.
  intros Hf. unfold readStatsXMLv2, xml_Decode, client_Get, decode_then, bind.
  cbn -[emit_stats].
  destruct (transport (url_String addr)) as [e|resp]; [done|].
  cbn -[emit_stats]. case_decide; [done|]. cbn -[emit_stats].
  destruct (decoder (Body resp)) as [e|stats]; [done|].
  cbn -[emit_stats]. by rewrite Hf.
Qed.

(** C2, as the code has it: the version markers of the document play no
    part.  Whatever the decoder makes of a body, putting any other version
    markers on the decoded document leaves the whole cycle as it was: the
    same result, the same accumulator calls, the same tag maps. *)
Theorem version_marker_ignored transport decoder b addr ver sver w :
  readStatsXMLv2 transport (decode_then (with_version ver sver) decoder) b addr w
  = readStatsXMLv2 transport decoder b addr w.
Proof. by apply cycle_decode_then. Qed.

(** C2, as stated, fails: a document marked [v9] is read like any other;
    the cycle returns no error and three observations are emitted. *)
Lemma version_v9_is_read :
  Version (full_fixture "v9") = "v9"
  ∧ eval (readStatsXMLv2 (answer 200 "200 OK") (decodes_to (full_fixture "v9"))
            (mkBind false false) example_addr) empty_world = None
  ∧ length (observations empty_world
              (exec (readStatsXMLv2 (answer 200 "200 OK")
                       (decodes_to (full_fixture "v9"))
                       (mkBind false false) example_addr) empty_world)) = 3.
Proof. split; [reflexivity|]. split; vm_compute; reflexivity. Qed.

(** C10: the cache sections of the views are never read.  Whatever the
    decoder makes of a body, taking every cache section out of the decoded
    document leaves the whole cycle as it was, in every configuration. *)
Theorem view_caches_never_emitted transport decoder b addr w :
  readStatsXMLv2 transport (decode_then drop_caches decoder) b addr w
  = readStatsXMLv2 transport decoder b addr w.
Proof. apply cycle_decode_then, emit_stats_drop_caches. Qed.

(** ** The observations of a successful cycle *)

Lemma item_obs_app items1 items2 :
  item_obs (items1 ++ items2) = item_obs items1 ++ item_obs items2.
Proof. apply omap_app. Qed.

Lemma item_obs_counter_items common g :
  item_obs (counter_items common g) = counter_obs common <$> g.
Proof.
  induction g as [|c g IH]; [done|].
  change (item_obs (counter_items common (c :: g)))
    with (counter_obs common c :: item_obs (counter_items common g)).
  by rewrite IH.
Qed.

Lemma Forall_item_obs (Q : Obs → Prop) items :
  Forall (λ i, match i with
               | Base _ => True
               | Emit k meas fs t => Q (mkObs k meas fs t)
               end) items →
  Forall Q (item_obs items).
Proof.
  induction 1 as [|[t|k meas fs t] items Hi _ IH]; [constructor|exact IH|].
  by constructor.
Qed.

Lemma filter_none {A} (P : A → Prop) `{∀ x, Decision (P x)} (l : list A) :
  Forall (λ x, ¬ P x) l → filter P l = [].
Proof.
  induction 1 as [|x l Hx _ IH]; [done|].
  by rewrite filter_cons_False.
Qed.

Lemma filter_all {A} (P : A → Prop) `{∀ x, Decision (P x)} (l : list A) :
  Forall P l → filter P l = l.
Proof.
  induction 1 as [|x l Hx _ IH]; [done|].
  rewrite filter_cons_True by done. by rewrite IH.
Qed.

(** The items of the server section and of the memory section carry no
    [view] tag; those of the views all do. *)
Lemma section_tags_view host label c :
  (<[ "name" := Name c ]> (section_tags host label)) !! "view" = None.
Proof.
  unfold section_tags.
  rewrite !lookup_insert_ne by done. by rewrite lookup_singleton_ne.
Qed.

Lemma section_tags_type host label c :
  (<[ "name" := Name c ]> (section_tags host label)) !! "type" = Some label.
Proof.
  unfold section_tags.
  rewrite lookup_insert_ne by done. by rewrite lookup_insert_eq.
Qed.

Lemma view_tags_view host view label c :
  (<[ "name" := Name c ]> (view_tags host view label)) !! "view" = Some view.
Proof.
  unfold view_tags.
  rewrite !lookup_insert_ne by done. by rewrite lookup_singleton_eq.
Qed.

Lemma context_tags_view host c : context_tags host c !! "view" = None.
Proof.
  unfold context_tags.
  rewrite !lookup_insert_ne by done. by rewrite lookup_singleton_ne.
Qed.

Lemma server_items_no_view host s :
  Forall (λ o, o_tags o !! "view" = None) (item_obs (server_items host s)).
Proof.
  unfold server_items. rewrite !item_obs_app, !item_obs_counter_items.
  repeat apply Forall_app_2; apply Forall_fmap, Forall_true; intros c;
    apply section_tags_view.
Qed.

Lemma memory_items_no_view b host m :
  Forall (λ o, o_tags o !! "view" = None) (item_obs (memory_items b host m)).
Proof.
  apply Forall_item_obs. unfold memory_items. constructor; [done|].
  destruct (GatherMemoryContexts b); [|constructor].
  apply Forall_fmap, Forall_true. intros c. apply context_tags_view.
Qed.

Lemma memory_items_gauges b host m :
  Forall (λ o, o_kind o = Gauge) (item_obs (memory_items b host m)).
Proof.
  apply Forall_item_obs. unfold memory_items. constructor; [done|].
  destruct (GatherMemoryContexts b); [|constructor].
  apply Forall_fmap, Forall_true. by intros c.
Qed.

Lemma views_items_view b host vs :
  Forall (λ o, is_Some (o_tags o !! "view")) (item_obs (views_items b host vs)).
Proof.
  unfold views_items. destruct (GatherViews b); [|constructor].
  induction vs as [|v vs IH]; [constructor|].
  rewrite bind_cons, item_obs_app. apply Forall_app_2; [|exact IH].
  unfold view_items.
  change (Base ?t :: ?l) with ([Base t] ++ l).
  rewrite !item_obs_app, !item_obs_counter_items.
  repeat apply Forall_app_2; [constructor|..];
    apply Forall_fmap, Forall_true; intros c; simpl;
    by rewrite view_tags_view.
Qed.

Lemma item_obs_stats_items b host stats :
  item_obs (stats_items b host stats)
  = item_obs (server_items host (Server (Statistics stats)))
    ++ item_obs (memory_items b host (Memory (Statistics stats)))
    ++ item_obs (views_items b host (Views (Statistics stats))).
Proof.
  unfold stats_items.
  change (Base ?t :: ?l) with ([Base t] ++ l).
  by rewrite !item_obs_app.
Qed.

Lemma filter_server_group label host l g :
  filter (is_server_counter label)
    (item_obs (counter_items (section_tags host l) g))
  = if decide (l = label) then server_obs "bind_counter" host l <$> g else [].
Proof.
  rewrite item_obs_counter_items. case_decide as Hl.
  - subst l. apply filter_all, Forall_fmap, Forall_true. intros c.
    split_and!; [done|apply section_tags_type|apply section_tags_view].
  - apply filter_none, Forall_fmap, Forall_true. intros c (_ & Ht & _).
    simpl in Ht. rewrite section_tags_type in Ht. congruence.
Qed.

Lemma filter_server_memory label b host m :
  filter (is_server_counter label) (item_obs (memory_items b host m)) = [].
Proof.
  apply filter_none.
  eapply Forall_impl; [apply memory_items_gauges|].
  intros o Hg (Hk & _). congruence.
Qed.

Lemma filter_server_views label b host vs :
  filter (is_server_counter label) (item_obs (views_items b host vs)) = [].
Proof.
  apply filter_none.
  eapply Forall_impl; [apply views_items_view|].
  intros o [v Hv] (_ & _ & Hn). congruence.
Qed.

(** C1, as the code has it: after a cycle whose answer has status 200 and
    decodes, for each of the five server groups the reader walks (opcodes,
    query types, ns-stats, zone-stats, socket-stats) the counter
    observations that carry the group's label ([opcode], [qtype],
    [nsstat], [zonestat], [sockstat]) as [type] tag and no [view] tag are
    exactly one per counter of the group, in order, each with measurement
    [bind_counter], the counter's value as field [value], and the tags
    [url], [type] and [name]. *)
Theorem server_groups_emitted transport decoder b addr w resp stats label g :
  transport (url_String addr) = inr resp →
  StatusCode resp = StatusOK →
  decoder (Body resp) = inr stats →
  (label, g) ∈ read_groups (Server (Statistics stats)) →
  filter (is_server_counter label)
    (observations w (exec (readStatsXMLv2 transport decoder b addr) w))
  = server_obs "bind_counter" (Host addr) label <$> g.
Proof.
  intros Ht Hs Hd Hin.
  rewrite cycle_observations. unfold run_items. rewrite Ht.
  rewrite decide_False by (by intros []). rewrite Hd.
  rewrite item_obs_stats_items, !filter_app.
  rewrite filter_server_memory, filter_server_views.
  unfold server_items. rewrite !item_obs_app, !filter_app, !filter_server_group.
  unfold read_groups in Hin.
  repeat (apply elem_of_cons in Hin as [Hin|Hin];
          [injection Hin as -> ->; repeat case_decide; try discriminate;
           simpl; by rewrite ?app_nil_r|]).
  by apply elem_of_nil in Hin.
Qed.

Lemma server_groups_emitted_witness :
  filter (is_server_counter "opcode")
    (observations empty_world (exec (full_cycle (mkBind true true)) empty_world))
  = [server_obs "bind_counter" "example:8053" "opcode" (mkCounter "QUERY" 42)].
Proof.
  apply (server_groups_emitted (answer 200 "200 OK")
           (decodes_to (full_fixture "2")) (mkBind true true) example_addr
           empty_world (mkResponse 200 "200 OK" 10 "<isc/>") (full_fixture "2")
           "opcode" [mkCounter "QUERY" 42]);
    [reflexivity..|].
  simpl. apply list_elem_of_here.
Defined.

(** C1, as stated, fails on two counts.  The resolver group of the server
    section is one of the six listed groups and holds a counter, yet no
    observation carries the [type] tag [resstat]; and no observation has
    the measurement name [stat_counter], so the opcode counter is not
    observed under that name either. *)
Lemma resstat_group_not_emitted :
  ("resstat", [mkCounter "Queryv4" 7])
    ∈ listed_groups (Server (Statistics (full_fixture "2")))
  ∧ eval (full_cycle (mkBind true true)) empty_world = None
  ∧ Forall (λ o, o_tags o !! "type" ≠ Some "resstat"
                 ∧ o_measurement o ≠ "stat_counter")
      (observations empty_world (exec (full_cycle (mkBind true true)) empty_world))
  ∧ filter (is_server_counter "opcode")
      (observations empty_world (exec (full_cycle (mkBind true true)) empty_world))
    ≠ server_obs "stat_counter" "example:8053" "opcode" <$> [mkCounter "QUERY" 42].
Proof.
  split; [simpl; do 4 apply list_elem_of_further; apply list_elem_of_here|].
  split; [reflexivity|]. split.
  - vm_compute. repeat constructor; discriminate.
  - intros Heq. apply (f_equal (fmap o_measurement)) in Heq.
    vm_compute in Heq. discriminate Heq.
Qed.

Lemma filter_counter_memory b host m :
  filter is_counter (item_obs (memory_items b host m)) = [].
Proof.
  apply filter_none.
  eapply Forall_impl; [apply memory_items_gauges|].
  unfold is_counter. intros o Hg Hk. congruence.
Qed.

Lemma tags_url_type_name host label name :
  <[ "name" := name ]> (section_tags host label)
  = {[ "url" := host; "type" := label; "name" := name ]}.
Proof.
  unfold section_tags. apply map_eq. intros k.
  rewrite !lookup_insert. repeat case_decide; simplify_eq; try done.
  by rewrite !lookup_singleton_ne.
Qed.

(** C8, as the code has it: a document whose opcode group holds exactly one
    counter, with the other four groups the reader walks empty and no
    views, yields exactly one counter observation: measurement
    [bind_counter], field [value] the counter's value, tags [url] (the
    host of the target), [type] = [opcode] and [name] the counter's
    name.  (The memory summary gauge is emitted besides.) *)
Theorem single_opcode_counter transport decoder b addr w resp stats c :
  transport (url_String addr) = inr resp →
  StatusCode resp = StatusOK →
  decoder (Body resp) = inr stats →
  OpCodes (Server (Statistics stats)) = [c] →
  RdTypes (Server (Statistics stats)) = [] →
  NSStats (Server (Statistics stats)) = [] →
  ZoneStats (Server (Statistics stats)) = [] →
  SockStats (Server (Statistics stats)) = [] →
  Views (Statistics stats) = [] →
  filter is_counter
    (observations w (exec (readStatsXMLv2 transport decoder b addr) w))
  = [mkObs Counter "bind_counter" {[ "value" := Value c ]}
       {[ "url" := Host addr; "type" := "opcode"; "name" := Name c ]}].
Proof.
  intros Ht Hs Hd Ho Hr Hn Hz Hk Hv.
  rewrite cycle_observations. unfold run_items. rewrite Ht.
  rewrite decide_False by (by intros []). rewrite Hd.
  rewrite item_obs_stats_items, !filter_app, filter_counter_memory.
  unfold server_items, views_items. rewrite Ho, Hr, Hn, Hz, Hk, Hv.
  rewrite <- tags_url_type_name.
  by destruct (GatherViews b).
Qed.

Lemma single_opcode_counter_witness :
  filter is_counter
    (observations empty_world (exec (opcode_cycle (mkBind true true)) empty_world))
  = [mkObs Counter "bind_counter" {[ "value" := 42%Z ]}
       {[ "url" := "example:8053"; "type" := "opcode"; "name" := "QUERY" ]}].
Proof.
  apply (single_opcode_counter (answer 200 "200 OK") (decodes_to opcode_fixture)
           (mkBind true true) example_addr empty_world
           (mkResponse 200 "200 OK" 10 "<isc/>") opcode_fixture
           (mkCounter "QUERY" 42));
    reflexivity.
Defined.

(** C8, as stated, fails: the one counter observation of the fixture does
    not have the measurement name [stat_counter]. *)
Lemma opcode_fixture_not_stat_counter :
  Version opcode_fixture = "2"
  ∧ OpCodes (Server (Statistics opcode_fixture)) = [mkCounter "QUERY" 42]
  ∧ filter is_counter
      (observations empty_world (exec (opcode_cycle (mkBind true true)) empty_world))
    ≠ [mkObs Counter "stat_counter" {[ "value" := 42%Z ]}
         {[ "url" := "example:8053"; "type" := "opcode"; "name" := "QUERY" ]}].
Proof.
  split; [reflexivity|]. split; [reflexivity|].
  intros Heq. apply (f_equal (fmap o_measurement)) in Heq.
  vm_compute in Heq. discriminate Heq.
Qed.

(** C9: with [GatherViews] off, no observation of the cycle carries a
    [view] tag, whatever the document holds and however the cycle ends. *)
Theorem no_view_tag_without_views transport decoder b addr w :
  GatherViews b = false →
  Forall (λ o, o_tags o !! "view" = None)
    (observations w (exec (readStatsXMLv2 transport decoder b addr) w)).
Proof.
  intros Hb. rewrite cycle_observations. unfold run_items.
  destruct (transport (url_String addr)) as [e|resp]; [constructor|].
  case_decide; [constructor|].
  destruct (decoder (Body resp)) as [e|stats]; [constructor|].
  rewrite item_obs_stats_items. unfold views_items. rewrite Hb.
  repeat apply Forall_app_2;
    [apply server_items_no_view|apply memory_items_no_view|constructor].
Qed.

Lemma no_view_tag_without_views_witness :
  Forall (λ o, o_tags o !! "view" = None)
    (observations empty_world (exec (full_cycle (mkBind true false)) empty_world)).
Proof.
  apply (no_view_tag_without_views (answer 200 "200 OK")
           (decodes_to (full_fixture "2")) (mkBind true false) example_addr
           empty_world).
  reflexivity.
Defined.

(** ** Tag maps: who shares what *)

(** [addXMLv2Counter] writes to the maps it makes and to no other: every
    map of the store, the one it copies from among them, is as before. *)
Lemma addXMLv2Counter_keeps_store common stats w r :
  r < length (heap w) →
  heap (exec (addXMLv2Counter common stats) w) !! r = heap w !! r.
Proof.
  intros Hr.
  assert (∃ t, heap w !! common = Some t ∨ (heap w !! common = None ∧ t = ∅))
    as [t Ht].
  { destruct (heap w !! common) as [t|]; eauto. }
  revert w Hr t Ht. induction stats as [|c stats IH]; intros w Hr t Ht; [done|].
  unfold exec in *. rewrite addXMLv2Counter_cons.
  match goal with |- heap (addXMLv2Counter _ _ ?w1).2 !! _ = _ => set (w1' := w1) end.
  assert (heap w1' !! r = heap w !! r) as <- by (by apply lookup_app_l).
  destruct (heap w1' !! common) as [t'|] eqn:Hc.
  - apply (IH w1' ltac:(simpl; rewrite length_app; lia) t'). by left.
  - apply (IH w1' ltac:(simpl; rewrite length_app; lia) ∅). by right.
Qed.

Lemma base_tags_after_emission_aux b addr stats w :
  heap (exec (emit_stats b addr stats) w) !! eval (emit_stats b addr stats) w
  = Some (section_tags (Host addr) "sockstat").
Proof.
  rewrite eval_emit_stats.
  destruct (emit_stats_grows b addr stats w) as [-> _ _].
  unfold stats_items. rewrite fmap_cons.
  by rewrite list_lookup_middle.
Qed.

(** C6, as the code has it: the [name], [view] and [id] tags never reach
    the base tag map made from the URL, but the [type] tag is written
    into that very map before each server group.  After the emission the
    base map holds its [url] entry and, besides, [type] = [sockstat]. *)
Theorem base_tags_after_emission b addr stats w :
  heap (exec (emit_stats b addr stats) w) !! eval (emit_stats b addr stats) w
  = Some {[ "url" := Host addr; "type" := "sockstat" ]}.
Proof.
  rewrite base_tags_after_emission_aux.
  (* both maps have the same two literal keys: equal by computation *)
  reflexivity.
Qed.

(** C6, as stated, fails: after the emission the base tag map no longer
    holds exactly the entry it was made with. *)
Lemma base_tags_mutated :
  heap (exec (emit_stats (mkBind true true) example_addr opcode_fixture)
          empty_world)
    !! eval (emit_stats (mkBind true true) example_addr opcode_fixture)
         empty_world
  ≠ Some {[ "url" := Host example_addr ]}.
Proof.
  rewrite base_tags_after_emission_aux. intros Heq.
  apply (f_equal (λ o, o ≫= (.!! "type"))) in Heq.
  vm_compute in Heq. discriminate Heq.
Qed.

(** The first map a cycle makes, if it makes any, is the base tag map, and
    it is kept by the reader. *)
Lemma run_items_base transport decoder b addr :
  run_items transport decoder b addr = []
  ∨ ∃ rest, run_items transport decoder b addr
            = Base (section_tags (Host addr) "sockstat") :: rest.
Proof.
  unfold run_items.
  destruct (transport (url_String addr)) as [e|resp]; [by left|].
  case_decide; [by left|].
  destruct (decoder (Body resp)) as [e|stats]; [by left|].
  right. unfold stats_items. eauto.
Qed.

(** A call of the log sits at the place of an [Emit] item: the maps the
    reader keeps for itself are never handed to the accumulator. *)
Lemma item_metrics_emit n items m :
  m ∈ item_metrics n items →
  ∃ p k meas fs t, tags m = n + p ∧ items !! p = Some (Emit k meas fs t).
Proof.
  revert n. induction items as [|[t|k meas fs t] items IH]; intros n Hin; simpl in Hin.
  - by apply elem_of_nil in Hin.
  - destruct (IH _ Hin) as (p & k & meas & fs & t' & Hp & Hl).
    exists (S p), k, meas, fs, t'. split; [lia|done].
  - apply elem_of_cons in Hin as [->|Hin].
    + exists 0, k, meas, fs, t. split; [simpl; lia|done].
    + destruct (IH _ Hin) as (p & k' & meas' & fs' & t' & Hp & Hl).
      exists (S p), k', meas', fs', t'. split; [lia|done].
Qed.

(** The tag maps handed to the accumulator in a cycle are made in that
    cycle, after the base tag map. *)
Lemma emitted_tags_fresh transport decoder b addr w m :
  m ∈ emitted w (exec (readStatsXMLv2 transport decoder b addr) w) →
  length (heap w) < tags m
  ∧ tags m < length (heap (exec (readStatsXMLv2 transport decoder b addr) w)).
Proof.
  rewrite cycle_emitted, cycle_heap, length_app, length_fmap. intros Hin. split.
  - destruct (run_items_base transport decoder b addr) as [Hnil|[rest Hb]].
    + rewrite Hnil in Hin. by apply elem_of_nil in Hin.
    + rewrite Hb in Hin. simpl in Hin.
      pose proof (item_metrics_ge (S (length (heap w))) rest) as Hge.
      rewrite Forall_forall in Hge. specialize (Hge m Hin). simpl in Hge. lia.
  - pose proof (item_metrics_lt (length (heap w))
                  (run_items transport decoder b addr)) as Hlt.
    rewrite Forall_forall in Hlt. exact (Hlt m Hin).
Qed.

(** No two accumulator calls of a cycle were given the same tag map. *)
Lemma emitted_tags_distinct transport decoder b addr w i j mi mj :
  i ≠ j →
  emitted w (exec (readStatsXMLv2 transport decoder b addr) w) !! i = Some mi →
  emitted w (exec (readStatsXMLv2 transport decoder b addr) w) !! j = Some mj →
  tags mi ≠ tags mj.
Proof.
  rewrite cycle_emitted. intros Hij Hi Hj Heq. apply Hij.
  eapply (NoDup_lookup (tags <$> _) i j (tags mi));
    [apply item_metrics_NoDup|..].
  - rewrite list_lookup_fmap, Hi. done.
  - rewrite list_lookup_fmap, Hj. simpl. by rewrite Heq.
Qed.

(** C7: every observation of a cycle has a tag map of its own.  Take two
    distinct accumulator calls of one cycle and write any key of the tag
    map of the first after the cycle: the write lands in that map, while
    the tag map of the second call is as it was, every map that existed
    before the cycle and the base tag map made from the URL (the first map
    of the cycle) are as they were, and so is every map the reader kept
    for itself (the base map of the server section and that of each
    view). *)
Theorem emitted_tags_independent transport decoder b addr w i j mi mj k v :
  i ≠ j →
  emitted w (exec (readStatsXMLv2 transport decoder b addr) w) !! i = Some mi →
  emitted w (exec (readStatsXMLv2 transport decoder b addr) w) !! j = Some mj →
  heap (exec (map_set (tags mi) k v)
          (exec (readStatsXMLv2 transport decoder b addr) w)) !! tags mi
    = <[k:=v]> <$>
        heap (exec (readStatsXMLv2 transport decoder b addr) w) !! tags mi
  ∧ is_Some (heap (exec (readStatsXMLv2 transport decoder b addr) w) !! tags mi)
  ∧ heap (exec (map_set (tags mi) k v)
            (exec (readStatsXMLv2 transport decoder b addr) w)) !! tags mj
    = heap (exec (readStatsXMLv2 transport decoder b addr) w) !! tags mj
  ∧ (∀ r, r ≤ length (heap w) →
      heap (exec (map_set (tags mi) k v)
              (exec (readStatsXMLv2 transport decoder b addr) w)) !! r
      = heap (exec (readStatsXMLv2 transport decoder b addr) w) !! r)
  ∧ (∀ p t, run_items transport decoder b addr !! p = Some (Base t) →
      heap (exec (map_set (tags mi) k v)
              (exec (readStatsXMLv2 transport decoder b addr) w))
        !! (length (heap w) + p)
      = heap (exec (readStatsXMLv2 transport decoder b addr) w)
          !! (length (heap w) + p)).
Proof.
  intros Hij Hi Hj.
  pose proof (emitted_tags_distinct _ _ _ _ _ _ _ _ _ Hij Hi Hj) as Hne.
  pose proof (list_elem_of_lookup_2 _ _ _ Hi) as Hin.
  pose proof (emitted_tags_fresh transport decoder b addr w mi Hin) as [Hlo Hhi].
  unfold map_set, exec at 1 3 5 7. simpl. split_and!.
  - apply list_lookup_alter_eq.
  - by apply lookup_lt_is_Some_2.
  - by apply list_lookup_alter_ne.
  - intros r Hr. apply list_lookup_alter_ne. lia.
  - intros p t Hp. apply list_lookup_alter_ne. intros Heq.
    rewrite cycle_emitted in Hin.
    apply item_metrics_emit in Hin as (p' & k' & meas & fs & t' & Hp' & Hl).
    assert (p' = p) as -> by lia. congruence.
Qed.

Lemma emitted_tags_independent_witness :
  heap (exec (map_set 1 "type" "changed")
          (exec (full_cycle (mkBind true true)) empty_world)) !! 1
    = <[ "type" := "changed" ]> <$>
        heap (exec (full_cycle (mkBind true true)) empty_world) !! 1
  ∧ is_Some (heap (exec (full_cycle (mkBind true true)) empty_world) !! 1)
  ∧ heap (exec (map_set 1 "type" "changed")
            (exec (full_cycle (mkBind true true)) empty_world)) !! 2
    = heap (exec (full_cycle (mkBind true true)) empty_world) !! 2
  ∧ (∀ r, r ≤ 0 →
      heap (exec (map_set 1 "type" "changed")
              (exec (full_cycle (mkBind true true)) empty_world)) !! r
      = heap (exec (full_cycle (mkBind true true)) empty_world) !! r)
  ∧ (∀ p t, run_items (answer 200 "200 OK") (decodes_to (full_fixture "2"))
              (mkBind true true) example_addr !! p = Some (Base t) →
      heap (exec (map_set 1 "type" "changed")
              (exec (full_cycle (mkBind true true)) empty_world)) !! (0 + p)
      = heap (exec (full_cycle (mkBind true true)) empty_world) !! (0 + p)).
Proof.
  apply (emitted_tags_independent (answer 200 "200 OK")
           (decodes_to (full_fixture "2")) (mkBind true true) example_addr
           empty_world 0 1
           (mkMetric Counter "bind_counter" {[ "value" := 42%Z ]} 1)
           (mkMetric Counter "bind_counter" {[ "value" := 9%Z ]} 2)
           "type" "changed");
    [lia|reflexivity|reflexivity].
Defined.

(** ** The reader against a function of the decoded document *)

Lemma run_items_decoded transport decoder b addr :
  run_items transport decoder b addr
  = match decoded_document transport decoder addr with
    | Some stats => stats_items b (Host addr) stats
    | None => []
    end.
Proof.
  unfold run_items, decoded_document.
  destruct (transport (url_String addr)) as [e|resp]; [done|].
  destruct (decide (StatusCode resp = StatusOK)) as [Hs|Hs].
  - rewrite decide_False by (by intros []). by destruct (decoder (Body resp)).
  - by rewrite decide_True.
Qed.

Lemma eval_cycle_decoded transport decoder b addr w :
  eval (readStatsXMLv2 transport decoder b addr) w = None
  ↔ is_Some (decoded_document transport decoder addr).
Proof.
  unfold eval, decoded_document.
  destruct (transport (url_String addr)) as [e|resp] eqn:Ht.
  { rewrite (cycle_get_error _ decoder b addr w e Ht). simpl.
    split; [done|]. by intros [? ?]. }
  case_decide as Hs.
  - destruct (decoder (Body resp)) as [e|stats] eqn:Hd.
    + rewrite (cycle_decode_error _ _ b addr w resp e Ht Hs Hd). simpl.
      split; [done|]. by intros [? ?].
    + rewrite (cycle_ok _ _ b addr w resp stats Ht Hs Hd). simpl.
      split; [eauto|done].
  - rewrite (cycle_bad_status _ decoder b addr w resp Ht Hs). simpl.
    split; [done|]. by intros [? ?].
Qed.

Lemma item_obs_context_items host cs :
  item_obs (context_item host <$> cs) = context_obs host <$> cs.
Proof.
  induction cs as [|c cs IH]; [done|].
  change (item_obs (context_item host <$> c :: cs))
    with (context_obs host c :: item_obs (context_item host <$> cs)).
  by rewrite IH.
Qed.

Lemma item_obs_view_items host v :
  item_obs (view_items host v) = view_obs host v.
Proof.
  unfold view_items. change (Base ?t :: ?l) with ([Base t] ++ l).
  by rewrite !item_obs_app, !item_obs_counter_items.
Qed.

Lemma item_obs_views host vs :
  item_obs (vs ≫= view_items host) = vs ≫= view_obs host.
Proof.
  induction vs as [|v vs IH]; [done|].
  by rewrite !bind_cons, item_obs_app, item_obs_view_items, IH.
Qed.

Lemma item_obs_expected b host stats :
  item_obs (stats_items b host stats) = expected_observations b host stats.
Proof.
  rewrite item_obs_stats_items. unfold expected_observations.
  unfold server_items, memory_items, views_items.
  rewrite !item_obs_app, !item_obs_counter_items, <- !(assoc_L (++)).
  destruct (GatherMemoryContexts b), (GatherViews b);
    change (Emit ?k ?m ?f ?t :: ?l) with ([Emit k m f t] ++ l);
    rewrite ?item_obs_app, ?item_obs_context_items, ?item_obs_views;
    reflexivity.
Qed.

Lemma observations_decoded transport decoder b addr w :
  observations w (exec (readStatsXMLv2 transport decoder b addr) w)
  = match decoded_document transport decoder addr with
    | Some stats => expected_observations b (Host addr) stats
    | None => []
    end.
Proof.
  rewrite cycle_observations, run_items_decoded.
  destruct (decoded_document transport decoder addr); [|done].
  apply item_obs_expected.
Qed.

Lemma Forall_expected (Q : Obs → Prop) b host stats :
  (∀ label c, Q (server_obs "bind_counter" host label c)) →
  (∀ s, Q (summary_obs host s)) →
  (∀ c, Q (context_obs host c)) →
  (∀ view label c,
     Q (counter_obs {[ "url" := host; "view" := view; "type" := label ]} c)) →
  Forall Q (expected_observations b host stats).
Proof.
  intros Hs Hm Hc Hv. unfold expected_observations.
  repeat apply Forall_app_2; try (apply Forall_fmap, Forall_true; intros c; apply Hs).
  - constructor; [apply Hm|constructor].
  - destruct (GatherMemoryContexts b); [|constructor].
    apply Forall_fmap, Forall_true. intros c. apply Hc.
  - destruct (GatherViews b); [|constructor].
    apply Forall_bind, Forall_true. intros v. unfold view_obs.
    apply Forall_app_2; apply Forall_fmap, Forall_true; intros c; apply Hv.
Qed.

Lemma length_view_obs host vs :
  length (vs ≫= view_obs host) = sum_list (view_count <$> vs).
Proof.
  induction vs as [|v vs IH]; [done|].
  rewrite bind_cons, length_app, IH, fmap_cons. simpl. f_equal.
  unfold view_obs, view_count. by rewrite length_app, !length_fmap.
Qed.

Lemma length_expected b host stats :
  length (expected_observations b host stats) = expected_count b stats.
Proof.
  unfold expected_observations, expected_count.
  rewrite !length_app, !length_fmap. simpl.
  destruct (GatherMemoryContexts b), (GatherViews b);
    rewrite ?length_fmap, ?length_view_obs; simpl; lia.
Qed.

Lemma counter_items_tags n common stats :
  tags <$> item_metrics n (counter_items common stats) = seq n (length stats).
Proof.
  revert n. induction stats as [|c stats IH]; intros n; [done|].
  simpl. f_equal. apply IH.
Qed.

(** ** [addXMLv2Counter] on its own *)

(** X1: called with a tag map that holds [t], [addXMLv2Counter] makes one
    accumulator call per counter of the slice, in the order of the slice
    and repeated names included: measurement [bind_counter], field [value]
    the counter's value, tags those of [t] with [name] set to the counter's
    name (over a [name] entry of [t], if there is one).  Each call gets a
    map made for it, [t] stays in the map it was read from, and no call
    leaves the package. *)
Theorem addXMLv2Counter_observations common t stats w :
  heap w !! common = Some t →
  observations w (exec (addXMLv2Counter common stats) w) = counter_obs t <$> stats
  ∧ tags <$> emitted w (exec (addXMLv2Counter common stats) w)
    = seq (length (heap w)) (length stats)
  ∧ heap (exec (addXMLv2Counter common stats) w) !! common = Some t
  ∧ events (exec (addXMLv2Counter common stats) w) = events w.
Proof.
  intros Hc. pose proof (addXMLv2Counter_grows common t stats w Hc) as Hg.
  split_and!.
  - by rewrite (grows_observations _ _ _ Hg), item_obs_counter_items.
  - by rewrite (grows_emitted _ _ _ Hg), counter_items_tags.
  - by apply (grows_lookup _ _ _ _ _ Hg).
  - by destruct Hg.
Qed.

Lemma addXMLv2Counter_observations_witness :
  observations (mkWorld [{[ "url" := "h"; "name" := "old" ]}] [] [])
    (exec (addXMLv2Counter 0 [mkCounter "A" 1; mkCounter "A" 2])
       (mkWorld [{[ "url" := "h"; "name" := "old" ]}] [] []))
  = counter_obs {[ "url" := "h"; "name" := "old" ]}
      <$> [mkCounter "A" 1; mkCounter "A" 2]
  ∧ tags <$> emitted (mkWorld [{[ "url" := "h"; "name" := "old" ]}] [] [])
      (exec (addXMLv2Counter 0 [mkCounter "A" 1; mkCounter "A" 2])
         (mkWorld [{[ "url" := "h"; "name" := "old" ]}] [] []))
    = seq 1 2
  ∧ heap (exec (addXMLv2Counter 0 [mkCounter "A" 1; mkCounter "A" 2])
            (mkWorld [{[ "url" := "h"; "name" := "old" ]}] [] [])) !! 0
    = Some {[ "url" := "h"; "name" := "old" ]}
  ∧ events (exec (addXMLv2Counter 0 [mkCounter "A" 1; mkCounter "A" 2])
              (mkWorld [{[ "url" := "h"; "name" := "old" ]}] [] [])) = [].
Proof.
  apply (addXMLv2Counter_observations 0 {[ "url" := "h"; "name" := "old" ]}
           [mkCounter "A" 1; mkCounter "A" 2]
           (mkWorld [{[ "url" := "h"; "name" := "old" ]}] [] [])).
  reflexivity.
Defined.

Lemma addXMLv2Counter_acc_prefix common stats w :
  acc w `prefix_of` acc (exec (addXMLv2Counter common stats) w).
Proof.
  revert w. induction stats as [|c stats IH]; intros w; [done|].
  unfold exec in *. rewrite addXMLv2Counter_cons.
  etrans; [|apply IH]. simpl. by apply prefix_app_r.
Qed.

(** X2: whatever reference it is called with, [addXMLv2Counter] writes to
    no map that was in the store before the call and takes back no
    accumulator call made before: every earlier map reads as before, and
    the earlier calls are an initial part of the calls after. *)
Theorem addXMLv2Counter_frame common stats w r t :
  heap w !! r = Some t →
  heap (exec (addXMLv2Counter common stats) w) !! r = Some t
  ∧ acc w `prefix_of` acc (exec (addXMLv2Counter common stats) w).
Proof.
  intros Hr. split; [|apply addXMLv2Counter_acc_prefix].
  rewrite addXMLv2Counter_keeps_store; [done|].
  by apply lookup_lt_Some in Hr.
Qed.

Lemma addXMLv2Counter_frame_witness :
  heap (exec (addXMLv2Counter 1 [mkCounter "A" 1])
          (mkWorld [{[ "k" := "v" ]}; {[ "url" := "h" ]}] [] [])) !! 0
    = Some {[ "k" := "v" ]}
  ∧ [] `prefix_of`
      acc (exec (addXMLv2Counter 1 [mkCounter "A" 1])
             (mkWorld [{[ "k" := "v" ]}; {[ "url" := "h" ]}] [] [])).
Proof.
  apply (addXMLv2Counter_frame 1 [mkCounter "A" 1]
           (mkWorld [{[ "k" := "v" ]}; {[ "url" := "h" ]}] [] []) 0
           {[ "k" := "v" ]}).
  reflexivity.
Defined.

(** X3: the copy loop of [addXMLv2Counter] does not depend on the order in
    which [range] visits the keys: writing the pairs of any enumeration of
    a map without repeated keys, one after the other, leaves the same
    world as the loop over the map. *)
Theorem copy_order_irrelevant (l : ref) (kvs : list (string * string)) w :
  NoDup kvs.*1 →
  for_each (λ kv, map_set l kv.1 kv.2) kvs w
  = map_range (λ k v, map_set l k v) (list_to_map kvs) w.
Proof.
  intros Hnd. by rewrite copy_any_order, map_range_copy.
Qed.

Lemma copy_order_irrelevant_witness :
  for_each (λ kv, map_set 0 kv.1 kv.2) [("url", "h"); ("type", "opcode")]
    (mkWorld [∅] [] [])
  = map_range (λ k v, map_set 0 k v)
      (list_to_map [("url", "h"); ("type", "opcode")]) (mkWorld [∅] [] []).
Proof.
  apply (copy_order_irrelevant 0 [("url", "h"); ("type", "opcode")]
           (mkWorld [∅] [] [])).
  apply (bool_decide_unpack (NoDup [("url", "h"); ("type", "opcode")].*1)).
  vm_compute. exact I.
Defined.

(** ** The paths of a cycle *)

(** X4: when [client.Get] fails, the cycle returns that very error: no
    accumulator call is made, no tag map is made, and the only call that
    leaves the package is the [Get] itself (nothing is decoded, and no
    body is closed, there being none). *)
Theorem get_error_returned transport decoder b addr w e :
  transport (url_String addr) = inl e →
  eval (readStatsXMLv2 transport decoder b addr) w = Some e
  ∧ acc (exec (readStatsXMLv2 transport decoder b addr) w) = acc w
  ∧ heap (exec (readStatsXMLv2 transport decoder b addr) w) = heap w
  ∧ events (exec (readStatsXMLv2 transport decoder b addr) w)
    = events w ++ [EvGet (url_String addr)].
Proof.
  intros Ht. unfold eval, exec.
  by rewrite (cycle_get_error transport decoder b addr w e Ht).
Qed.

Lemma get_error_returned_witness :
  eval (readStatsXMLv2 (λ _, inl "connection refused")
          (decodes_to opcode_fixture) (mkBind true true) example_addr)
    empty_world = Some "connection refused"
  ∧ acc (exec (readStatsXMLv2 (λ _, inl "connection refused")
                 (decodes_to opcode_fixture) (mkBind true true) example_addr)
           empty_world) = []
  ∧ heap (exec (readStatsXMLv2 (λ _, inl "connection refused")
                  (decodes_to opcode_fixture) (mkBind true true) example_addr)
            empty_world) = []
  ∧ events (exec (readStatsXMLv2 (λ _, inl "connection refused")
                    (decodes_to opcode_fixture) (mkBind true true) example_addr)
              empty_world) = [EvGet "http://example:8053"].
Proof.
  apply (get_error_returned (λ _, inl "connection refused")
           (decodes_to opcode_fixture) (mkBind true true) example_addr
           empty_world "connection refused").
  reflexivity.
Defined.

(** X5: once [client.Get] has answered, the body of the answer is closed
    on every path out of the function (wrong status, decode error,
    success): the calls that leave the package start with the [Get], end
    with the one [Close], and no [Close] comes before. *)
Theorem body_closed_once transport decoder b addr w resp :
  transport (url_String addr) = inr resp →
  ∃ mid,
    events (exec (readStatsXMLv2 transport decoder b addr) w)
    = events w ++ EvGet (url_String addr) :: mid ++ [EvClose]
    ∧ EvClose ∉ mid.
Proof.
  intros Ht. unfold exec.
  destruct (decide (StatusCode resp = StatusOK)) as [Hs|Hs].
  - exists [EvLogPrintf "D! HTTP response content length: %d" (ContentLength resp);
            EvDecode (Body resp)].
    split.
    + destruct (decoder (Body resp)) as [e|stats] eqn:Hd.
      * by rewrite (cycle_decode_error _ _ b addr w resp e Ht Hs Hd).
      * by rewrite (cycle_ok _ _ b addr w resp stats Ht Hs Hd).
    + intros Hin.
      repeat (apply elem_of_cons in Hin as [Hin|Hin]; [discriminate Hin|]).
      by apply elem_of_nil in Hin.
  - exists []. split.
    + by rewrite (cycle_bad_status _ decoder b addr w resp Ht Hs).
    + apply not_elem_of_nil.
Qed.

Lemma body_closed_once_witness :
  ∃ mid,
    events (exec (readStatsXMLv2 (answer 500 "500 Internal Server Error")
                    decode_fails (mkBind true true) example_addr) empty_world)
    = [] ++ EvGet "http://example:8053" :: mid ++ [EvClose]
    ∧ EvClose ∉ mid.
Proof.
  apply (body_closed_once (answer 500 "500 Internal Server Error")
           decode_fails (mkBind true true) example_addr empty_world
           (mkResponse 500 "500 Internal Server Error" 10 "<isc/>")).
  reflexivity.
Defined.

(** X6: a cycle returns an error exactly when it has made no accumulator
    call.  Every failure comes before the first call, and a cycle that
    succeeds has made at least the call of the memory summary. *)
Theorem error_iff_nothing_emitted transport decoder b addr w :
  is_Some (eval (readStatsXMLv2 transport decoder b addr) w)
  ↔ emitted w (exec (readStatsXMLv2 transport decoder b addr) w) = [].
Proof.
  pose proof (eval_cycle_decoded transport decoder b addr w) as Hev.
  pose proof (observations_decoded transport decoder b addr w) as Hobs.
  unfold observations in Hobs.
  destruct (decoded_document transport decoder addr) as [stats|].
  - split.
    + intros [e He]. rewrite (proj2 Hev) in He by eauto. discriminate He.
    + intros Hnil. rewrite Hnil in Hobs.
      apply (f_equal length) in Hobs. rewrite length_expected in Hobs.
      unfold expected_count in Hobs. simpl in Hobs. lia.
  - split.
    + intros _. by apply fmap_nil_inv in Hobs.
    + intros _.
      destruct (eval (readStatsXMLv2 transport decoder b addr) w) as [e|] eqn:He;
        [eauto|].
      destruct (proj1 Hev eq_refl) as [? ?]. discriminate.
Qed.

(** ** The observations of a cycle *)

(** X7: the observations of a cycle whose document decodes are those of
    the statements of the reader, in their order: the five server groups
    ([opcode], [qtype], [nsstat], [zonestat], [sockstat]), the memory
    summary, the memory contexts if [GatherMemoryContexts] is on, then for
    each view, if [GatherViews] is on, its query types ([qtype]) and its
    resolver counters ([resstats]). *)
Theorem observations_in_order transport decoder b addr w stats :
  decoded_document transport decoder addr = Some stats →
  observations w (exec (readStatsXMLv2 transport decoder b addr) w)
  = expected_observations b (Host addr) stats.
Proof. intros Hd. by rewrite observations_decoded, Hd. Qed.

Lemma observations_in_order_witness :
  observations empty_world (exec (full_cycle (mkBind true true)) empty_world)
  = expected_observations (mkBind true true) "example:8053" (full_fixture "2").
Proof.
  apply (observations_in_order (answer 200 "200 OK")
           (decodes_to (full_fixture "2")) (mkBind true true) example_addr
           empty_world (full_fixture "2")).
  reflexivity.
Defined.

(** X8: a cycle whose document decodes makes as many accumulator calls as
    there are counters in the five server groups it walks, plus one for
    the memory summary, plus one per memory context if
    [GatherMemoryContexts] is on, plus one per query-type and resolver
    counter of every view if [GatherViews] is on. *)
Theorem observation_count transport decoder b addr w stats :
  decoded_document transport decoder addr = Some stats →
  length (emitted w (exec (readStatsXMLv2 transport decoder b addr) w))
  = expected_count b stats.
Proof.
  intros Hd.
  rewrite <- (length_fmap (observe
    (heap (exec (readStatsXMLv2 transport decoder b addr) w)))).
  fold (observations w (exec (readStatsXMLv2 transport decoder b addr) w)).
  by rewrite observations_decoded, Hd, length_expected.
Qed.

Lemma observation_count_witness :
  length (emitted empty_world (exec (full_cycle (mkBind true true)) empty_world))
  = expected_count (mkBind true true) (full_fixture "2").
Proof.
  apply (observation_count (answer 200 "200 OK")
           (decodes_to (full_fixture "2")) (mkBind true true) example_addr
           empty_world (full_fixture "2")).
  reflexivity.
Defined.

(** X9: every observation of a cycle carries the [url] tag, and its value
    is the host of the target. *)
Theorem url_tag_everywhere transport decoder b addr w :
  Forall (λ o, o_tags o !! "url" = Some (Host addr))
    (observations w (exec (readStatsXMLv2 transport decoder b addr) w)).
Proof.
  rewrite observations_decoded.
  destruct (decoded_document transport decoder addr) as [stats|]; [|constructor].
  apply Forall_expected; intros; reflexivity.
Qed.

(** X10: every observation of a cycle has one of two shapes.  A counter has
    the measurement [bind_counter], the single field [value], and carries
    the tags [type] and [name]; a gauge has the measurement [bind_memory]
    or [bind_memory_context] and carries no [type] tag. *)
Theorem observations_well_shaped transport decoder b addr w :
  Forall well_shaped
    (observations w (exec (readStatsXMLv2 transport decoder b addr) w)).
Proof.
  rewrite observations_decoded.
  destruct (decoded_document transport decoder addr) as [stats|]; [|constructor].
  apply Forall_expected; intros; unfold well_shaped; simpl.
  - split_and!; [done|by eexists|by eexists|by eexists].
  - split; [by left|done].
  - split; [by right|done].
  - split_and!; [done|by eexists|by eexists|by eexists].
Qed.

Lemma filter_expected (P : Obs → Prop) `{∀ o, Decision (P o)} b host stats :
  (∀ label c, ¬ P (server_obs "bind_counter" host label c)) →
  filter P (expected_observations b host stats)
  = filter P [summary_obs host (Summary (Memory (Statistics stats)))]
    ++ filter P (if GatherMemoryContexts b
                 then context_obs host <$> Contexts (Memory (Statistics stats))
                 else [])
    ++ filter P (if GatherViews b
                 then Views (Statistics stats) ≫= view_obs host
                 else []).
Proof.
  intros Hs. unfold expected_observations. rewrite !filter_app.
  rewrite !(filter_none P (server_obs _ _ _ <$> _))
    by (apply Forall_fmap, Forall_true; intros c; apply Hs).
  done.
Qed.

Lemma Forall_view_obs (Q : Obs → Prop) host vs :
  (∀ view label c,
     Q (counter_obs {[ "url" := host; "view" := view; "type" := label ]} c)) →
  Forall Q (vs ≫= view_obs host).
Proof.
  intros Hv. apply Forall_bind, Forall_true. intros v. unfold view_obs.
  apply Forall_app_2; apply Forall_fmap, Forall_true; intros c; apply Hv.
Qed.

(** X11: a cycle whose document decodes makes exactly one observation with
    the measurement [bind_memory], whatever the switches: a gauge whose
    fields are the five figures of the memory summary ([TotalUse],
    [InUse], [BlockSize], [ContextSize], [Lost]) and whose only tag is
    [url]. *)
Theorem memory_summary_once transport decoder b addr w stats :
  decoded_document transport decoder addr = Some stats →
  filter (has_measurement "bind_memory")
    (observations w (exec (readStatsXMLv2 transport decoder b addr) w))
  = [mkObs Gauge "bind_memory"
       {[ "TotalUse" := TotalUse (Summary (Memory (Statistics stats)));
          "InUse" := InUse (Summary (Memory (Statistics stats)));
          "BlockSize" := BlockSize (Summary (Memory (Statistics stats)));
          "ContextSize" := ContextSize (Summary (Memory (Statistics stats)));
          "Lost" := Lost (Summary (Memory (Statistics stats))) ]}
       {[ "url" := Host addr ]}].
Proof.
  intros Hd. rewrite observations_decoded, Hd.
  rewrite filter_expected by (intros label c; unfold has_measurement; done).
  rewrite (filter_none _ (if GatherMemoryContexts b then _ else _)).
  2:{ destruct (GatherMemoryContexts b); [|constructor].
      apply Forall_fmap, Forall_true. intros c. unfold has_measurement. done. }
  rewrite (filter_none _ (if GatherViews b then _ else _)).
  2:{ destruct (GatherViews b); [|constructor].
      apply Forall_view_obs. intros. unfold has_measurement. done. }
  reflexivity.
Qed.

Lemma memory_summary_once_witness :
  filter (has_measurement "bind_memory")
    (observations empty_world (exec (full_cycle (mkBind true true)) empty_world))
  = [mkObs Gauge "bind_memory"
       {[ "TotalUse" := 1%Z; "InUse" := 2%Z; "BlockSize" := 3%Z;
          "ContextSize" := 4%Z; "Lost" := 5%Z ]}
       {[ "url" := "example:8053" ]}].
Proof.
  apply (memory_summary_once (answer 200 "200 OK")
           (decodes_to (full_fixture "2")) (mkBind true true) example_addr
           empty_world (full_fixture "2")).
  reflexivity.
Defined.

(** X12: the memory contexts are behind [GatherMemoryContexts].  In a cycle
    whose document decodes, the observations with the measurement
    [bind_memory_context] are none when the switch is off, and when it is
    on one gauge per context, in order, with the fields [Total] and
    [InUse] and the tags [url], [id] and [name]. *)
Theorem memory_contexts_switch transport decoder b addr w stats :
  decoded_document transport decoder addr = Some stats →
  filter (has_measurement "bind_memory_context")
    (observations w (exec (readStatsXMLv2 transport decoder b addr) w))
  = if GatherMemoryContexts b
    then (λ c, mkObs Gauge "bind_memory_context"
                 {[ "Total" := ctx_Total c; "InUse" := ctx_InUse c ]}
                 {[ "url" := Host addr; "id" := ctx_Id c; "name" := ctx_Name c ]})
         <$> Contexts (Memory (Statistics stats))
    else [].
Proof.
  intros Hd. rewrite observations_decoded, Hd.
  rewrite filter_expected by (intros label c; unfold has_measurement; done).
  rewrite (filter_none _ (if GatherViews b then _ else _)).
  2:{ destruct (GatherViews b); [|constructor].
      apply Forall_view_obs. intros. unfold has_measurement. done. }
  rewrite app_nil_r. simpl.
  destruct (GatherMemoryContexts b); [|done].
  apply filter_all, Forall_fmap, Forall_true. by intros c.
Qed.

Lemma memory_contexts_switch_witness :
  filter (has_measurement "bind_memory_context")
    (observations empty_world (exec (full_cycle (mkBind true false)) empty_world))
  = (λ c, mkObs Gauge "bind_memory_context"
            {[ "Total" := ctx_Total c; "InUse" := ctx_InUse c ]}
            {[ "url" := "example:8053"; "id" := ctx_Id c; "name" := ctx_Name c ]})
    <$> [mkContext "0x1" "main" 10 5].
Proof.
  apply (memory_contexts_switch (answer 200 "200 OK")
           (decodes_to (full_fixture "2")) (mkBind true false) example_addr
           empty_world (full_fixture "2")).
  reflexivity.
Defined.

(** X13: the views are behind [GatherViews].  In a cycle whose document
    decodes, the observations that carry a [view] tag are none when the
    switch is off, and when it is on they are, view after view, one
    counter per query type of the view with [type] = [qtype], then one per
    resolver counter of the view with [type] = [resstats], each with the
    tags [url], [view], [type] and [name]. *)
Theorem views_switch transport decoder b addr w stats :
  decoded_document transport decoder addr = Some stats →
  filter has_view_tag
    (observations w (exec (readStatsXMLv2 transport decoder b addr) w))
  = if GatherViews b
    then Views (Statistics stats) ≫= (λ v,
           ((λ c, mkObs Counter "bind_counter" {[ "value" := Value c ]}
                    {[ "url" := Host addr; "view" := view_Name v;
                       "type" := "qtype"; "name" := Name c ]})
              <$> view_RdTypes v)
           ++ ((λ c, mkObs Counter "bind_counter" {[ "value" := Value c ]}
                       {[ "url" := Host addr; "view" := view_Name v;
                          "type" := "resstats"; "name" := Name c ]})
                 <$> view_ResStats v))
    else [].
Proof.
  intros Hd. rewrite observations_decoded, Hd.
  rewrite filter_expected.
  2:{ intros label c [x Hx]. simpl in Hx.
      rewrite section_tags_view in Hx. discriminate Hx. }
  rewrite (filter_none _ (if GatherMemoryContexts b then _ else _)).
  2:{ destruct (GatherMemoryContexts b); [|constructor].
      apply Forall_fmap, Forall_true. intros c [x Hx]. discriminate Hx. }
  rewrite filter_cons_False by (intros [x Hx]; discriminate Hx).
  simpl. destruct (GatherViews b); [|done].
  rewrite filter_all by (apply Forall_view_obs; intros; by eexists).
  reflexivity.
Qed.

Lemma views_switch_witness :
  filter has_view_tag
    (observations empty_world (exec (full_cycle (mkBind false true)) empty_world))
  = [mkObs Counter "bind_counter" {[ "value" := 3%Z ]}
       {[ "url" := "example:8053"; "view" := "_default";
          "type" := "qtype"; "name" := "A" ]};
     mkObs Counter "bind_counter" {[ "value" := 5%Z ]}
       {[ "url" := "example:8053"; "view" := "_default";
          "type" := "resstats"; "name" := "Queryv4" ]}].
Proof.
  apply (views_switch (answer 200 "200 OK")
           (decodes_to (full_fixture "2")) (mkBind false true) example_addr
           empty_world (full_fixture "2")).
  reflexivity.
Defined.

(** ** What does not matter to a cycle *)

Lemma eval_cycle_value transport decoder b addr w :
  eval (readStatsXMLv2 transport decoder b addr) w
  = match transport (url_String addr) with
    | inl e => Some e
    | inr resp =>
        if decide (StatusCode resp = StatusOK)
        then match decoder (Body resp) with
             | inl e => Some ("Unable to decode XML document: " +:+ e)
             | inr _ => None
             end
        else Some (url_String addr +:+ " returned HTTP status: " +:+ Status resp)
    end.
Proof.
  unfold eval.
  destruct (transport (url_String addr)) as [e|resp] eqn:Ht.
  { by rewrite (cycle_get_error _ decoder b addr w e Ht). }
  case_decide as Hs.
  - destruct (decoder (Body resp)) as [e|stats] eqn:Hd.
    + by rewrite (cycle_decode_error _ _ b addr w resp e Ht Hs Hd).
    + by rewrite (cycle_ok _ _ b addr w resp stats Ht Hs Hd).
  - by rewrite (cycle_bad_status _ decoder b addr w resp Ht Hs).
Qed.

(** X14: the resolver group of the server section is decoded and never
    looked at.  Whatever the decoder makes of a body, putting any other
    counters in [Server.ResStats] of the decoded document leaves the whole
    cycle as it was: result, accumulator calls, tag maps and calls that
    leave the package. *)
Theorem server_resstats_never_read transport decoder b addr rs w :
  readStatsXMLv2 transport (decode_then (with_server_ResStats rs) decoder) b addr w
  = readStatsXMLv2 transport decoder b addr w.
Proof. by apply cycle_decode_then. Qed.

(** X15: a cycle keeps nothing from one run to the next.  From any two
    worlds (other tag maps in the store, other calls already made) the
    same answer gives the same result and the same observations. *)
Theorem cycle_keeps_no_state transport decoder b addr w w' :
  eval (readStatsXMLv2 transport decoder b addr) w
  = eval (readStatsXMLv2 transport decoder b addr) w'
  ∧ observations w (exec (readStatsXMLv2 transport decoder b addr) w)
    = observations w' (exec (readStatsXMLv2 transport decoder b addr) w').
Proof.
  split.
  - by rewrite !eval_cycle_value.
  - by rewrite !observations_decoded.
Qed.

(** X16: the two switches only add.  If every switch that is on in [b] is
    on in [b'], a cycle under [b'] returns what it returns under [b], and
    the observations under [b] are among those under [b'], in the same
    order. *)
Theorem switches_only_add transport decoder b b' addr w :
  implb (GatherMemoryContexts b) (GatherMemoryContexts b') = true →
  implb (GatherViews b) (GatherViews b') = true →
  eval (readStatsXMLv2 transport decoder b addr) w
  = eval (readStatsXMLv2 transport decoder b' addr) w
  ∧ observations w (exec (readStatsXMLv2 transport decoder b addr) w)
    `sublist_of`
    observations w (exec (readStatsXMLv2 transport decoder b' addr) w).
Proof.
  intros Hc Hv. split; [by rewrite !eval_cycle_value|].
  rewrite !observations_decoded.
  destruct (decoded_document transport decoder addr) as [stats|]; [|done].
  unfold expected_observations.
  repeat (apply sublist_app; [done|]).
  apply sublist_app.
  - destruct (GatherMemoryContexts b), (GatherMemoryContexts b');
      try done; apply sublist_nil_l.
  - destruct (GatherViews b), (GatherViews b'); try done; apply sublist_nil_l.
Qed.

Lemma switches_only_add_witness :
  eval (full_cycle (mkBind true false)) empty_world
  = eval (full_cycle (mkBind true true)) empty_world
  ∧ observations empty_world (exec (full_cycle (mkBind true false)) empty_world)
    `sublist_of`
    observations empty_world (exec (full_cycle (mkBind true true)) empty_world).
Proof.
  apply (switches_only_add (answer 200 "200 OK")
           (decodes_to (full_fixture "2")) (mkBind true false)
           (mkBind true true) example_addr empty_world);
    reflexivity.
Defined.

(** X17: a cycle leaves what was there alone, however it ends: every tag
    map that was in the store before it reads as before, and the
    accumulator calls made before it are an initial part of the calls
    after it. *)
Theorem cycle_frame transport decoder b addr w r t :
  heap w !! r = Some t →
  heap (exec (readStatsXMLv2 transport decoder b addr) w) !! r = Some t
  ∧ acc w `prefix_of` acc (exec (readStatsXMLv2 transport decoder b addr) w).
Proof.
  intros Hr. rewrite cycle_heap, cycle_acc. split.
  - by apply lookup_app_l_Some.
  - by apply prefix_app_r.
Qed.

Lemma cycle_frame_witness :
  heap (exec (full_cycle (mkBind true true))
          (mkWorld [{[ "k" := "v" ]}] [mkMetric Gauge "other" ∅ 0] [])) !! 0
    = Some {[ "k" := "v" ]}
  ∧ [mkMetric Gauge "other" ∅ 0] `prefix_of`
      acc (exec (full_cycle (mkBind true true))
             (mkWorld [{[ "k" := "v" ]}] [mkMetric Gauge "other" ∅ 0] [])).
Proof.
  apply (cycle_frame (answer 200 "200 OK") (decodes_to (full_fixture "2"))
           (mkBind true true) example_addr
           (mkWorld [{[ "k" := "v" ]}] [mkMetric Gauge "other" ∅ 0] []) 0
           {[ "k" := "v" ]}).
  reflexivity.
Defined.
